(** * heartpy/visualizeutils.py: plots and reports of heart-rate measures

    A shallow embedding of [plotter], [segment_plotter], [plot_poincare],
    [rotate_vec], [plot_breathing], [plot_psd] and [report]; the
    properties their specification states about them, and further
    properties that the code shows.

    Modelling conventions.
    - A Python [dict] is an insertion-ordered association list with unique
      keys; a missing key raises [KeyError].
    - Python values are the inductive [pyval]; a plain [list] and a numpy
      [ndarray] are different constructors, because the operators of the
      language treat them differently.
    - A Python [float] is modelled by the rational it denotes (finite
      values only, binary rounding left out); the trigonometry of
      [rotate_vec] is carried out over the real numbers.
    - A Python [str] is modelled by a string of bytes, which stands for
      a text of ASCII characters.
    - An exception is a value of [exn].  Code that acts on the world runs
      in the monad [SE S A := S -> (exn + A) * S]: the state survives a
      raised exception, as a written file survives a later crash.
    - matplotlib and the file system are collaborators: every call the
      code issues to them is recorded, in order, in the log of the world;
      the artists added to a figure are recorded in the figure. *)

From Stdlib Require Import ZArith QArith Qround Qabs List String Ascii Bool Lia.
From Stdlib Require Import DecimalString Reals Psatz.
Import ListNotations.

Local Open Scope string_scope.
Local Open Scope Z_scope.

(** ** Exceptions and the two monads *)

Inductive exn : Type :=
| AssertionError (msg : string)
| KeyError (key : string)
| IndexError
| TypeError
| ValueError
| AttributeError
| ZeroDivisionError
| OSError.

Definition result (A : Type) : Type := (exn + A)%type.

Definition raise {A : Type} (e : exn) : result A := inl e.
Definition ok {A : Type} (a : A) : result A := inr a.

Declare Scope py_scope.
Delimit Scope py_scope with py.

(** [x <- e ;; k] in [result]: the first exception is the outcome. *)
Notation "x <- e ;; k" :=
  (match e with inl err => inl err | inr x => k end)
  (at level 100, e at next level, right associativity) : py_scope.

Local Open Scope py_scope.

(** State and exceptions; the state is kept when an exception is raised. *)
Definition SE (S A : Type) : Type := S -> result A * S.

Definition retS {S A : Type} (a : A) : SE S A := fun s => (inr a, s).

Definition bindS {S A B : Type} (m : SE S A) (k : A -> SE S B) : SE S B :=
  fun s =>
    match m s with
    | (inl e, s') => (inl e, s')
    | (inr a, s') => k a s'
    end.

Definition raiseS {S A : Type} (e : exn) : SE S A := fun s => (inl e, s).

(** A pure computation inside a stateful one. *)
Definition lift {S A : Type} (r : result A) : SE S A := fun s => (r, s).

(** [try: body / except: handler] with a bare [except], which catches
    every exception; what [body] did to the state before raising stays. *)
Definition try_except {S A : Type} (body : SE S A) (handler : SE S A) : SE S A :=
  fun s =>
    match body s with
    | (inl _, s') => handler s'
    | (inr a, s') => (inr a, s')
    end.

Notation "x <~ e ;; k" := (bindS e (fun x => k))
  (at level 100, e at next level, right associativity) : py_scope.
Notation "e ;;; k" := (bindS e (fun _ => k))
  (at level 100, right associativity) : py_scope.

(** [for x in xs: body x] *)
Fixpoint for_each {S A : Type} (xs : list A) (body : A -> SE S unit) : SE S unit :=
  match xs with
  | [] => retS tt
  | x :: rest => body x ;;; for_each rest body
  end.

(** ** Python values *)

#[warnings="-register-all"]
Inductive pyval : Type :=
| VNone
| VInt (z : Z)
| VFloat (q : Q)
| VStr (s : string)
| VList (l : list pyval)
| VTuple (l : list pyval)
| VArray (l : list pyval).

Definition pydict : Type := list (string * pyval).

(** [d[k]] *)
Fixpoint dict_get (d : pydict) (k : string) : result pyval :=
  match d with
  | [] => raise (KeyError k)
  | (k', v) :: rest => if String.eqb k k' then ok v else dict_get rest k
  end.

(** [d[k] = v]: the value of an existing key is replaced in place, a new
    key goes to the end. *)
Fixpoint dict_set (d : pydict) (k : string) (v : pyval) : pydict :=
  match d with
  | [] => [(k, v)]
  | (k', v') :: rest =>
      if String.eqb k k' then (k', v) :: rest else (k', v') :: dict_set rest k v
  end.

Definition chars (s : string) : list pyval :=
  map (fun c => VStr (String c EmptyString)) (list_ascii_of_string s).

(** The items of a sequence, as [len], indexing and [for] see them. *)
Definition py_items (v : pyval) : result (list pyval) :=
  match v with
  | VStr s => ok (chars s)
  | VList l | VTuple l | VArray l => ok l
  | VNone | VInt _ | VFloat _ => raise TypeError
  end.

(** [len(v)] *)
Definition py_len (v : pyval) : result Z :=
  l <- py_items v ;; ok (Z.of_nat (List.length l)).

(** [v[i]] for an integer [i]; a negative index counts from the end. *)
Definition py_getitem (v : pyval) (i : Z) : result pyval :=
  l <- py_items v ;;
  let n := Z.of_nat (List.length l) in
  let j := if i <? 0 then i + n else i in
  if (j <? 0) || (n <=? j) then raise IndexError
  else match nth_error l (Z.to_nat j) with
       | Some x => ok x
       | None => raise IndexError
       end.

(** The rational a Python number denotes. *)
Definition as_number (v : pyval) : result Q :=
  match v with
  | VInt z => ok (inject_Z z)
  | VFloat q => ok q
  | _ => raise TypeError
  end.

(** [a / b] on two numbers. *)
Definition num_truediv (a b : pyval) : result pyval :=
  x <- as_number a ;;
  y <- as_number b ;;
  if Qeq_bool y 0 then raise ZeroDivisionError
  else ok (VFloat (Qred (x / y))).

Fixpoint map_result {A B : Type} (f : A -> result B) (l : list A) : result (list B) :=
  match l with
  | [] => ok []
  | x :: rest => y <- f x ;; ys <- map_result f rest ;; ok (y :: ys)
  end.

(** The operator [a / b] for a number [b]: numbers divide, an [ndarray]
    divides element by element, and a [list], [tuple], [str] or [None] on
    the left has no such operator.  The model stops at numbers on the
    right: a right operand of another kind is answered with [TypeError]
    (the broadcasting of numpy over an array on the right is left out).
    Non-finite floats are not represented, so an array divided by zero,
    to which numpy answers [inf] or [nan], is reported here as
    [ZeroDivisionError]; [plotter] cannot reach that case, since it
    evaluates [len(hr)/fs] first. *)
Definition py_div (a b : pyval) : result pyval :=
  match a with
  | VArray l => r <- map_result (fun x => num_truediv x b) l ;; ok (VArray r)
  | VInt _ | VFloat _ => num_truediv a b
  | VNone | VStr _ | VList _ | VTuple _ => raise TypeError
  end.

(** [np.asarray(v)]: a sequence becomes an array, an array is returned as
    it is, and any other value is wrapped without change. *)
Definition np_asarray (v : pyval) : pyval :=
  match v with
  | VList l | VTuple l => VArray l
  | _ => v
  end.

(** [np.arange(start, stop, step)]: [ceil((stop - start)/step)] values
    [start + i*step]. *)
Definition np_arange (start stop step : pyval) : result pyval :=
  a <- as_number start ;;
  b <- as_number stop ;;
  s <- as_number step ;;
  if Qeq_bool s 0 then raise ZeroDivisionError
  else
    let n := Z.to_nat (Qceiling ((b - a) / s)) in
    ok (VArray (map (fun i => VFloat (Qred (a + inject_Z (Z.of_nat i) * s))) (seq 0 n))).

(** [range(start, stop, step)] for [step > 0], with the length CPython
    computes for it. *)
Definition py_range (start stop step : Z) : list Z :=
  let n := if start <? stop then (stop - start - 1) / step + 1 else 0 in
  map (fun k => start + Z.of_nat k * step) (seq 0 (Z.to_nat n)).

(** [str.endswith] *)
Definition endswith (s suffix : string) : bool :=
  let n := String.length s in
  let m := String.length suffix in
  (m <=? n)%nat && String.eqb (substring (n - m) m s) suffix.

(** [%i] of an integer *)
Definition string_of_Z (z : Z) : string := NilZero.string_of_int (Z.to_int z).

(** ** Text of numbers *)

Definition nl : string := String (ascii_of_nat 10) EmptyString.

Definition digit_char (d : Z) : ascii := ascii_of_nat (48 + Z.to_nat d).

(** The last [n] decimal digits of [m], the most significant first. *)
Fixpoint digits_of (n : nat) (m : Z) : string :=
  match n with
  | O => EmptyString
  | S n' => digits_of n' (m / 10) ++ String (digit_char (m mod 10)) EmptyString
  end.

Fixpoint repeat_char (c : ascii) (n : nat) : string :=
  match n with
  | O => EmptyString
  | S n' => String c (repeat_char c n')
  end.

(** Rounding of a non-negative rational to the nearest integer, a tie
    going to the even neighbour, as the conversions of CPython do. *)
Definition round_half_even (q : Q) : Z :=
  let n := Qnum q in
  let d := Z.pos (Qden q) in
  let f := n / d in
  let r := n mod d in
  match 2 * r ?= d with
  | Lt => f
  | Gt => f + 1
  | Eq => if Z.even f then f else f + 1
  end.

Definition pow10 (k : Z) : Q :=
  if 0 <=? k then inject_Z (10 ^ k) else / inject_Z (10 ^ (- k)).

Fixpoint count_digits (fuel : nat) (n : Z) : Z :=
  match fuel with
  | O => 1
  | S fuel' => if n <? 10 then 1 else 1 + count_digits fuel' (n / 10)
  end.

(** The number of decimal digits of [p]. *)
Definition ndigits (p : positive) : Z :=
  count_digits (S (Z.to_nat (Z.log2 (Z.pos p)))) (Z.pos p).

(** [floor(log10 q)] for [q > 0], found from the digit counts of the
    numerator and the denominator. *)
Definition ilog10 (q : Q) : Z :=
  match Qnum q with
  | Z.pos n =>
      let e := ndigits n - ndigits (Qden q) in
      if Qle_bool (pow10 e) q then e else e - 1
  | _ => 0
  end.

(** The digits of the [%f] conversion of [q >= 0] with [prec] decimals;
    [alt] keeps the point when there are none. *)
Definition fixed_digits (alt : bool) (prec : nat) (q : Q) : string :=
  let m := round_half_even (q * pow10 (Z.of_nat prec)) in
  let ip := m / 10 ^ Z.of_nat prec in
  let fp := m mod 10 ^ Z.of_nat prec in
  string_of_Z ip
    ++ (if alt || negb (Nat.eqb prec 0) then "." else "")
    ++ digits_of prec fp.

(** Removal of the zeros that end a digit string. *)
Fixpoint strip_zeros (s : string) : string :=
  match s with
  | EmptyString => EmptyString
  | String c rest =>
      match strip_zeros rest with
      | EmptyString => if Ascii.eqb c "0" then EmptyString else String c EmptyString
      | r => String c r
      end
  end.

(** Mantissa and decimal exponent of [q >= 0] at [p] significant digits:
    [q] is about [m * 10^(x - p + 1)] with [10^(p-1) <= m < 10^p]. *)
Definition sig_digits (p : nat) (q : Q) : Z * Z :=
  if Qeq_bool q 0 then (0, 0)
  else
    let x0 := ilog10 q in
    let m := round_half_even (q * pow10 (Z.of_nat p - 1 - x0)) in
    if m =? 10 ^ Z.of_nat p then (10 ^ (Z.of_nat p - 1), x0 + 1) else (m, x0).

Definition exponent_text (x : Z) : string :=
  (if x <? 0 then "-" else "+")
    ++ (if Z.abs x <? 10 then "0" else "") ++ string_of_Z (Z.abs x).

(** The digits of the [g] conversion of [q >= 0] at precision [prec]
    (0 counts as 1): fixed notation when the exponent lies in [-4, p),
    scientific otherwise; without [alt] the zeros after the point, and a
    point with nothing after it, are dropped. *)
Definition general_digits (alt : bool) (prec : nat) (q : Q) : string :=
  let p := Nat.max prec 1 in
  let '(m, x) := sig_digits p q in
  let point (frac : string) : string :=
    if alt then "." ++ frac
    else match strip_zeros frac with
         | EmptyString => EmptyString
         | f => "." ++ f
         end in
  if (-4 <=? x) && (x <? Z.of_nat p) then
    if 0 <=? x then
      let k := (p - 1 - Z.to_nat x)%nat in
      digits_of (S (Z.to_nat x)) (m / 10 ^ Z.of_nat k)
        ++ point (digits_of k (m mod 10 ^ Z.of_nat k))
    else
      "0" ++ point (repeat_char "0" (Z.to_nat (- x - 1)) ++ digits_of p m)
  else
    digits_of 1 (m / 10 ^ (Z.of_nat p - 1))
      ++ point (digits_of (p - 1) (m mod 10 ^ (Z.of_nat p - 1)))
      ++ "e" ++ exponent_text x.

(** ** The format-specification mini-language of [str.format]

    [[[fill]align][sign][#][0][width][.precision][type]], the part of the
    grammar that the format strings of this file use. *)

Inductive align_opt : Type := AlignLeft | AlignRight | AlignCenter | AlignAfterSign.
Inductive sign_opt : Type := SignMinus | SignPlus | SignSpace.

Record format_spec : Type := {
  fs_fill : option ascii;
  fs_align : option align_opt;
  fs_sign : option sign_opt;
  fs_alt : bool;
  fs_zero : bool;
  fs_width : option nat;
  fs_precision : option nat;
  fs_type : option ascii
}.

Definition align_of_char (c : ascii) : option align_opt :=
  if Ascii.eqb c "<" then Some AlignLeft
  else if Ascii.eqb c ">" then Some AlignRight
  else if Ascii.eqb c "^" then Some AlignCenter
  else if Ascii.eqb c "=" then Some AlignAfterSign
  else None.

Definition sign_of_char (c : ascii) : option sign_opt :=
  if Ascii.eqb c "-" then Some SignMinus
  else if Ascii.eqb c "+" then Some SignPlus
  else if Ascii.eqb c " " then Some SignSpace
  else None.

Definition is_digit (c : ascii) : bool :=
  let n := nat_of_ascii c in (48 <=? n)%nat && (n <=? 57)%nat.

(** The longest run of digits that starts [s], as a number, and the rest. *)
Fixpoint read_nat (s : string) (acc : option nat) : option nat * string :=
  match s with
  | String c rest =>
      if is_digit c then
        read_nat rest
          (Some (10 * match acc with Some a => a | None => 0 end
                 + (nat_of_ascii c - 48))%nat)
      else (acc, s)
  | EmptyString => (acc, s)
  end.

Definition parse_fill_align (s : string) : option ascii * option align_opt * string :=
  match s with
  | String f (String a rest) =>
      match align_of_char a with
      | Some al => (Some f, Some al, rest)
      | None =>
          match align_of_char f with
          | Some al => (None, Some al, String a rest)
          | None => (None, None, s)
          end
      end
  | String a rest =>
      match align_of_char a with
      | Some al => (None, Some al, rest)
      | None => (None, None, s)
      end
  | EmptyString => (None, None, s)
  end.

Definition parse_sign (s : string) : option sign_opt * string :=
  match s with
  | String c rest =>
      match sign_of_char c with
      | Some sg => (Some sg, rest)
      | None => (None, s)
      end
  | EmptyString => (None, s)
  end.

Definition parse_flag (flag : ascii) (s : string) : bool * string :=
  match s with
  | String c rest => if Ascii.eqb c flag then (true, rest) else (false, s)
  | EmptyString => (false, s)
  end.

Definition parse_precision (s : string) : option (option nat * string) :=
  match s with
  | String c rest =>
      if Ascii.eqb c "." then
        match read_nat rest None with
        | (Some p, rest') => Some (Some p, rest')
        | (None, _) => None
        end
      else Some (None, s)
  | EmptyString => Some (None, s)
  end.

(** [None] when [s] is not a specification of the fragment. *)
Definition parse_spec (s : string) : option format_spec :=
  let '(fill, al, s1) := parse_fill_align s in
  let '(sg, s2) := parse_sign s1 in
  let '(alt, s3) := parse_flag "#" s2 in
  let '(zero, s4) := parse_flag "0" s3 in
  let '(width, s5) := read_nat s4 None in
  match parse_precision s5 with
  | None => None
  | Some (prec, s6) =>
      let mk ty := Some {| fs_fill := fill; fs_align := al; fs_sign := sg;
                           fs_alt := alt; fs_zero := zero; fs_width := width;
                           fs_precision := prec; fs_type := ty |} in
      match s6 with
      | EmptyString => mk None
      | String ty EmptyString => mk (Some ty)
      | _ => None
      end
  end.

(** Padding of [sign ++ body] to the width of the field. *)
Definition pad (fill : ascii) (al : align_opt) (width : option nat)
    (sign body : string) : string :=
  let w := match width with Some w => w | None => O end in
  let k := (w - (String.length sign + String.length body))%nat in
  match al with
  | AlignLeft => sign ++ body ++ repeat_char fill k
  | AlignRight => repeat_char fill k ++ sign ++ body
  | AlignCenter =>
      repeat_char fill (k / 2) ++ sign ++ body ++ repeat_char fill (k - k / 2)
  | AlignAfterSign => sign ++ repeat_char fill k ++ body
  end.

(** What stands before the digits of a number: [-] for a negative one;
    for the others [+] under the sign option [+], a blank under the sign
    option blank, and nothing under [-] or without a sign option. *)
Definition sign_text (sg : option sign_opt) (q : Q) : string :=
  if Qnum q <? 0 then "-"
  else match sg with
       | Some SignPlus => "+"
       | Some SignSpace => " "
       | Some SignMinus | None => ""
       end.

Definition fill_of (spec : format_spec) : ascii :=
  match fs_fill spec with
  | Some c => c
  | None => if fs_zero spec then "0"%char else " "%char
  end.

Definition align_of (spec : format_spec) (default : align_opt) : align_opt :=
  match fs_align spec with
  | Some a => a
  | None => if fs_zero spec then AlignAfterSign else default
  end.

(** A number under a presentation type of floats, [g] or [f]; the
    precision defaults to 6. *)
Definition format_float (spec : format_spec) (ty : ascii) (q : Q) : result string :=
  let prec := match fs_precision spec with Some p => p | None => 6%nat end in
  body <- (if Ascii.eqb ty "g" then ok (general_digits (fs_alt spec) prec (Qabs q))
           else if Ascii.eqb ty "f" then ok (fixed_digits (fs_alt spec) prec (Qabs q))
           else raise ValueError) ;;
  ok (pad (fill_of spec) (align_of spec AlignRight) (fs_width spec)
        (sign_text (fs_sign spec) q) body).

Definition format_int (spec : format_spec) (z : Z) : result string :=
  match fs_precision spec with
  | Some _ => raise ValueError
  | None =>
      ok (pad (fill_of spec) (align_of spec AlignRight) (fs_width spec)
            (sign_text (fs_sign spec) (inject_Z z)) (string_of_Z (Z.abs z)))
  end.

Definition format_str (spec : format_spec) (s : string) : result string :=
  match fs_sign spec, fs_alt spec, align_of spec AlignLeft with
  | Some _, _, _ | _, true, _ | _, _, AlignAfterSign => raise ValueError
  | None, false, al =>
      let body := match fs_precision spec with
                  | Some p => substring 0 p s
                  | None => s
                  end in
      ok (pad (fill_of spec) al (fs_width spec) "" body)
  end.

(** [format(v, spec)] for the values and the presentation types that
    [report] meets: a [str] under no type or [s], an [int] under no type,
    [d] or a type of floats, a [float] under a type of floats.  A value
    with no [__format__] for a specification raises [TypeError]. *)
Definition format_value (spec : format_spec) (v : pyval) : result string :=
  match v, fs_type spec with
  | VStr s, None => format_str spec s
  | VStr s, Some ty => if Ascii.eqb ty "s" then format_str spec s else raise ValueError
  | VInt z, None => format_int spec z
  | VInt z, Some ty =>
      if Ascii.eqb ty "d" then format_int spec z else format_float spec ty (inject_Z z)
  | VFloat q, Some ty => format_float spec ty q
  | VFloat _, None => raise ValueError
  | (VNone | VList _ | VTuple _ | VArray _), _ => raise TypeError
  end.

(** A format string is a run of literal characters and replacement
    fields [{}] or [{:spec}], numbered as they come. *)
Inductive piece : Type :=
| Lit (c : ascii)
| Field (spec : string).

Fixpoint parse_template (s : string) (field : option string) : option (list piece) :=
  match s, field with
  | EmptyString, None => Some []
  | EmptyString, Some _ => None
  | String c rest, None =>
      if Ascii.eqb c "{" then parse_template rest (Some EmptyString)
      else if Ascii.eqb c "}" then None
      else option_map (cons (Lit c)) (parse_template rest None)
  | String c rest, Some f =>
      if Ascii.eqb c "}" then option_map (cons (Field f)) (parse_template rest None)
      else if Ascii.eqb c "{" then None
      else parse_template rest (Some (f ++ String c EmptyString))
  end.

Definition parse_field (f : string) : option format_spec :=
  match f with
  | EmptyString => parse_spec EmptyString
  | String c spec => if Ascii.eqb c ":" then parse_spec spec else None
  end.

Fixpoint fill_template (ps : list piece) (args : list pyval) : result string :=
  match ps with
  | [] => ok EmptyString
  | Lit c :: rest => s <- fill_template rest args ;; ok (String c s)
  | Field f :: rest =>
      match args with
      | [] => raise IndexError
      | a :: args' =>
          match parse_field f with
          | None => raise ValueError
          | Some spec =>
              x <- format_value spec a ;;
              s <- fill_template rest args' ;;
              ok (x ++ s)
          end
      end
  end.

(** [template.format(a0, a1, ...)] *)
Definition str_format (template : string) (args : list pyval) : result string :=
  match parse_template template None with
  | None => raise ValueError
  | Some ps => fill_template ps args
  end.

(** ['%.2f' % v]: a real number with two decimals. *)
Definition percent_2f (v : pyval) : result string :=
  q <- as_number v ;;
  ok (sign_text None q ++ fixed_digits false 2 (Qabs q)).

(** ** Figures and the world *)

(** A colour is an entry of the palette that the [config] module hands
    out, referred to by its index, or a colour name. *)
Inductive color : Type :=
| Palette (i : nat)
| Named (name : string).

(** The calls made on the axes of a figure, with their arguments. *)
Inductive artist : Type :=
| SetTitle (title : string)
| SetXLabel (label : string)
| PlotLine (x y : pyval) (c : color) (label : option string)
    (alpha : option Q) (zorder : option Z)
| Scatter (x y : pyval) (c : color) (label : string)
| AxVSpan (xmin xmax : pyval) (facecolor : string) (alpha : Q)
| Legend (loc : Z) (framealpha : Q).

Definition figure : Type := list artist.

(** The calls made on pyplot, on a figure as a whole, on the file system
    and on the standard output. *)
Inductive event : Type :=
| PltFigure (figsize : option (Q * Q))
| PltSubplots (figsize : option (Q * Q))
| FigShow (fig : figure)
| FigSavefig (fname : string) (fig : figure)
| FigClose (fig : figure)
| MakeDirs (path : string)
| Print (text : string)
| FileWrite (fname text : string).

Record world : Type := {
  dirs : list string;   (* the paths for which [os.path.isdir] holds *)
  log : list event      (* the calls issued so far, the oldest first *)
}.

Definition emit (ev : event) : SE world unit :=
  fun w => (inr tt, {| dirs := dirs w; log := (log w ++ [ev])%list |}).

Definition os_path_isdir (path : string) : SE world bool :=
  fun w => (inr (existsb (String.eqb path) (dirs w)), w).

Definition os_makedirs (path : string) : SE world unit :=
  fun w =>
    if existsb (String.eqb path) (dirs w) then (inl OSError, w)
    else (inr tt, {| dirs := path :: dirs w; log := (log w ++ [MakeDirs path])%list |}).

Definition draw (a : artist) : SE figure unit :=
  fun fig => (inr tt, (fig ++ [a])%list).

(** The calls on one figure, from its creation on; an exception that
    leaves them unfinished leaves the function, and the figure with it. *)
Definition on_new_figure (m : SE figure unit) : SE world figure :=
  fun w =>
    match m [] with
    | (inl e, _) => (inl e, w)
    | (inr _, fig) => (inr fig, w)
    end.

(** ** [plotter] *)

Definition default_title : string := "Heart Rate Signal Peak Detection".

(** What [ax.axvspan] makes of a bound.  matplotlib builds the corners of
    a polygon from the two bounds: a number is a coordinate; with a
    sequence ([list], [tuple], [ndarray]) for a bound the corners make
    no array of points, and [None] is no coordinate, so that the call
    raises.  A [str] is no coordinate of the numeric axis of this plot
    either; as matplotlib can also take texts for categories, the
    statements below leave bounds that are texts aside. *)
Definition span_bound (v : pyval) : result unit :=
  match v with
  | VInt _ | VFloat _ => ok tt
  | VList _ | VTuple _ | VArray _ => raise ValueError
  | VNone | VStr _ => raise TypeError
  end.

(** [ax.axvspan(xmin, xmax, facecolor=..., alpha=...)] *)
Definition ax_axvspan (xmin xmax : pyval) (facecolor : string) (alpha : Q)
    : SE figure unit :=
  lift (span_bound xmin) ;;;
  lift (span_bound xmax) ;;;
  draw (AxVSpan xmin xmax facecolor alpha).

(** The [try ... except: pass] block of [plotter].  The call of
    [ax.axvspan] stands inside the block, so that the block also takes
    up what that call raises. *)
Definition shade_rejected_segments (working_data : pydict) : SE figure unit :=
  try_except
    (rs <~ lift (dict_get working_data "rejected_segments") ;;
     n <~ lift (py_len rs) ;;
     if 1 <=? n then
       segments <~ lift (rs' <- dict_get working_data "rejected_segments" ;;
                         py_items rs') ;;
       for_each segments (fun segment =>
         a <~ lift (py_getitem segment 0) ;;
         b <~ lift (py_getitem segment 1) ;;
         ax_axvspan a b "red" (1 # 2))
     else retS tt)
    (retS tt).

Definition plotter (working_data measures : pydict) (show : bool)
    (figsize : option (Q * Q)) (title : string) (moving_average : bool)
    : SE world (option figure) :=
  fs <~ lift (dict_get working_data "sample_rate") ;;
  plotx <~ lift (hr <- dict_get working_data "hr" ;;
                 n <- py_len hr ;;
                 stop <- py_div (VInt n) fs ;;
                 step <- py_div (VInt 1) fs ;;
                 np_arange (VInt 0) stop step) ;;
  peaklist <~ lift (dict_get working_data "peaklist") ;;
  ybeat <~ lift (dict_get working_data "ybeat") ;;
  rejectedpeaks <~ lift (dict_get working_data "removed_beats") ;;
  rejectedpeaks_y <~ lift (dict_get working_data "removed_beats_y") ;;
  emit (PltSubplots figsize) ;;;
  fig <~ on_new_figure (
    draw (SetTitle title) ;;;
    (hr <~ lift (dict_get working_data "hr") ;;
     draw (PlotLine plotx hr (Palette 0) (Some "heart rate signal") None (Some (-10)))) ;;;
    draw (SetXLabel "Time (s)") ;;;
    (if moving_average then
       rm <~ lift (dict_get working_data "rolling_mean") ;;
       draw (PlotLine plotx rm (Named "gray") None (Some (1 # 2)) None)
     else retS tt) ;;;
    (x <~ lift (py_div (np_asarray peaklist) fs) ;;
     bpm <~ lift (dict_get measures "bpm") ;;
     txt <~ lift (percent_2f bpm) ;;
     draw (Scatter x ybeat (Palette 1) ("BPM:" ++ txt))) ;;;
    (x <~ lift (py_div rejectedpeaks fs) ;;
     draw (Scatter x rejectedpeaks_y (Palette 2) "rejected peaks")) ;;;
    (* check if rejected segment detection is on and has rejected segments *)
    shade_rejected_segments working_data ;;;
    draw (Legend 4 (3 # 5))) ;;
  if show then emit (FigShow fig) ;;; retS None
  else retS (Some fig).

(** ** [segment_plotter] *)

Definition step_message : string :=
  "step must be larger than zero and smaller than total number of segments".
Definition dquote : string := String (ascii_of_nat 34) EmptyString.
Definition end_message : string :=
  "defined " ++ dquote ++ "end" ++ dquote
    ++ " endpoint is larger than number of segments".

Definition py_assert (b : bool) (msg : string) : result unit :=
  if b then ok tt else raise (AssertionError msg).

(** [d[key][i]] *)
Definition subscript2 (d : pydict) (key : string) (i : Z) : result pyval :=
  x <- dict_get d key ;; py_getitem x i.

(** One turn of the loop of [segment_plotter], for the segment [i] and
    the file number [filenum].  The keys of [wd_segment] and [m_segment]
    are those that the source assigns, in its order, and no others. *)
Definition plot_segment (working_data measures : pydict)
    (figsize : option (Q * Q)) (path : string) (i filenum : Z) : SE world unit :=
  let wd_segment : pydict := [] in
  let m_segment : pydict := [] in
  (* assign values to sub-object for plotting purposes *)
  v <~ lift (subscript2 working_data "peaklist" i) ;;
  let wd_segment := dict_set wd_segment "peaklist" v in
  v <~ lift (subscript2 working_data "ybeat" i) ;;
  let wd_segment := dict_set wd_segment "ybeat" v in
  v <~ lift (subscript2 working_data "removed_beats" i) ;;
  let wd_segment := dict_set wd_segment "removed_beats" v in
  v <~ lift (subscript2 working_data "removed_beats_y" i) ;;
  let wd_segment := dict_set wd_segment "removed_beats_y" v in
  v <~ lift (subscript2 working_data "hr" i) ;;
  let wd_segment := dict_set wd_segment "hr" v in
  v <~ lift (subscript2 working_data "rolling_mean" i) ;;
  let wd_segment := dict_set wd_segment "rolling_mean" v in
  v <~ lift (subscript2 measures "bpm" i) ;;
  let m_segment := dict_set m_segment "bpm" v in
  wd_segment <~ try_except
    (v <~ lift (subscript2 working_data "rejected_segments" i) ;;
     retS (dict_set wd_segment "rejected_segments" v))
    (retS wd_segment) ;;
  (* plot it using built-in plotter *)
  emit (PltFigure figsize) ;;;
  p <~ plotter wd_segment m_segment false None default_title false ;;
  match p with
  | Some fig =>
      emit (FigSavefig (path ++ string_of_Z filenum ++ ".png") fig) ;;;
      emit (FigClose fig)
  | None => raiseS AttributeError
  end.

(** [for i in range(...)] with the counter [filenum] of the files. *)
Fixpoint segment_loop (working_data measures : pydict)
    (figsize : option (Q * Q)) (path : string) (indices : list Z) (filenum : Z)
    : SE world unit :=
  match indices with
  | [] => retS tt
  | i :: rest =>
      plot_segment working_data measures figsize path i filenum ;;;
      segment_loop working_data measures figsize path rest (filenum + 1)
  end.

(** The block of [segment_plotter] that completes [path]; it answers the
    path that the file names are built on. *)
Definition output_path (path : string) : SE world string :=
  (* add trailing path slash if user omitted it *)
  if negb (endswith path "/" || endswith path "\") && (0 <? String.length path)%nat
  then
    let path := path ++ "/" in
    (* create path if it does not exist *)
    isdir <~ os_path_isdir path ;;
    (if negb isdir then os_makedirs path else retS tt) ;;;
    retS path
  else retS path.

Definition segment_plotter (working_data measures : pydict) (title : string)
    (figsize : option (Q * Q)) (path : string) (start : Z) (end_ : option Z)
    (step : Z) : SE world unit :=
  (* sanity check *)
  lift (inside <- (if 0 <? step then
                     hr <- dict_get working_data "hr" ;;
                     n <- py_len hr ;;
                     ok (step <? n)
                   else ok false) ;;
        py_assert inside step_message) ;;;
  (* set endpoint if not explicitly defined *)
  end_ <~ lift (match end_ with
                | None => hr <- dict_get working_data "hr" ;; py_len hr
                | Some e =>
                    (* make sure it is defined within boundary conditions *)
                    hr <- dict_get working_data "hr" ;;
                    n <- py_len hr ;;
                    _ <- py_assert (e <=? n) end_message ;;
                    ok e
                end) ;;
  path <~ output_path path ;;
  (* make plots *)
  segment_loop working_data measures figsize path (py_range start end_ step) 0.

(** ** [report] *)

Definition upper_char (c : ascii) : ascii :=
  let n := nat_of_ascii c in
  if (97 <=? n)%nat && (n <=? 122)%nat then ascii_of_nat (n - 32) else c.

(** A text of ASCII characters: every byte is below 128. *)
Definition is_ascii (s : string) : bool :=
  forallb (fun c => (nat_of_ascii c <? 128)%nat) (list_ascii_of_string s).

(** [str.upper] on a text of ASCII characters ([is_ascii]): the letters
    [a] to [z] become [A] to [Z], character by character.  Of a text
    with other characters [str.upper] can change more, and even the
    length (a sharp s becomes [SS]); such texts lie outside what a
    string of bytes stands for, and what is stated of the length of a
    label is stated of ASCII keys. *)
Fixpoint upper (s : string) : string :=
  match s with
  | EmptyString => EmptyString
  | String c rest => String (upper_char c) (upper rest)
  end.

Definition label_formatter (m : string) : string :=
  if String.eqb m "ibi" then "IBI (ms)"
  else if String.eqb m "sdnn" then "SDNN (ms)"
  else if String.eqb m "sdsd" then "SDSD (ms)"
  else if String.eqb m "rmssd" then "RMSSD (ms)"
  else if String.eqb m "pnn20" then "pNN20"
  else if String.eqb m "pnn50" then "pNN50"
  else if String.eqb m "hr_mad" then "HR_MAD (ms)"
  else if String.eqb m "sd1" then "SD1 (ms)"
  else if String.eqb m "sd2" then "SD2 (ms)"
  else if String.eqb m "s" then "S (ms^2)"
  else if String.eqb m "vlf" then "VLF (ms^2)"
  else if String.eqb m "lf" then "LF (ms^2)"
  else if String.eqb m "hf" then "HF (ms^2)"
  else if String.eqb m "p_total" then "P_total (ms^2)"
  else if String.eqb m "vlf_perc" then "VLF %"
  else if String.eqb m "lf_perc" then "LF %"
  else if String.eqb m "hf_perc" then "HF %"
  else if String.eqb m "lf_nu" then "LF (nu)"
  else if String.eqb m "hf_nu" then "HF (nu)"
  else upper m.

(** The format strings of [report], as the source writes them. *)
Definition header_fmt (csvfile : bool) : string :=
  if csvfile then "{},{}" ++ nl else "{:<14} {:<15}" ++ nl.
Definition table_fmt (csvfile : bool) : string :=
  if csvfile then "{},{:#.9g}" ++ nl else "{:<14} {:< #15.3g}" ++ nl.
Definition info_fmt (csvfile : bool) : string :=
  if csvfile then "{},{:#0.3g}" ++ nl else "{:<14} {:< #15.3g}" ++ nl.

(** [for k, v in measures.items(): out_str += str_fmt.format(...)] *)
Fixpoint table_lines (str_fmt : string) (items : pydict) (out_str : string)
    : result string :=
  match items with
  | [] => ok out_str
  | (k, v) :: rest =>
      line <- str_format str_fmt [VStr (label_formatter k); v] ;;
      table_lines str_fmt rest (out_str ++ line)
  end.

(** [100*n_rmbeats/len(working_data['RR_list'])] *)
Definition pc_rmbeats (working_data : pydict) (n_rmbeats : Z) : result pyval :=
  rr <- dict_get working_data "RR_list" ;;
  n <- py_len rr ;;
  num_truediv (VInt (100 * n_rmbeats)) (VInt n).

(** The text that [report] builds in [out_str] before it prints or
    writes it. *)
Definition report_text (working_data measures : pydict) (csvfile : bool)
    : result string :=
  let out_str := "" in
  (* header *)
  let str_fmt := header_fmt csvfile in
  line <- str_format str_fmt [VStr "Measure"; VStr "Value"] ;;
  let out_str := out_str ++ line in
  line <- str_format str_fmt [VStr "-----------"; VStr "---------"] ;;
  let out_str := out_str ++ line in
  (* table lines *)
  let str_fmt := table_fmt csvfile in
  out_str <- table_lines str_fmt measures out_str ;;
  (* Info *)
  let out_str := if csvfile then out_str else out_str ++ nl in
  let str_fmt := info_fmt csvfile in
  best_ma <- dict_get working_data "best" ;;
  line <- str_format str_fmt [VStr "Best MA (%)"; best_ma] ;;
  let out_str := out_str ++ line in
  n_rmbeats <- (rb <- dict_get working_data "removed_beats" ;; py_len rb) ;;
  pc <- pc_rmbeats working_data n_rmbeats ;;
  line <- str_format str_fmt [VStr "Excl. peaks"; VInt n_rmbeats] ;;
  let out_str := out_str ++ line in
  line <- str_format str_fmt [VStr "Excl. %"; pc] ;;
  ok (out_str ++ line).

Definition report (working_data measures : pydict) (outfile : option string)
    (csvfile : bool) : SE world unit :=
  out_str <~ lift (report_text working_data measures csvfile) ;;
  (* print or write out *)
  match outfile with
  | None => emit (Print out_str)
  | Some f => emit (FileWrite f out_str)
  end.

(** ** [rotate_vec] and [plot_poincare], over the real numbers *)

Local Open Scope R_scope.

(** [np.radians] *)
Definition np_radians (angle : R) : R := angle * PI / 180.

Definition rotate_vec (x y angle : R) : R * R :=
  let theta := np_radians angle in
  let cs := cos theta in
  let sn := sin theta in
  let x_rot := (x * cs) - (y * sn) in
  let y_rot := (x * sn) + (y * cs) in
  (x_rot, y_rot).

(** [working_data['poincare']] and the two measures that the plot reads. *)
Record poincare : Type := { x_plus : list R; x_minus : list R }.
Record sd_measures : Type := { sd1 : R; sd2 : R }.

(** The artists of a Poincare plot.  An ellipse is a patch that the code
    goes on changing after it has put it on the axes. *)
Record ellipse : Type := {
  el_center : R * R;
  el_width : R;
  el_height : R;
  el_angle : R;
  el_edgecolor : option (R * R * R);
  el_fill : bool
}.

Inductive partist : Type :=
| PScatter (x y : list R) (c : color) (alpha : R) (label : string)
| PPlot (x y : list R) (c : color) (alpha : option R) (label : string)
| PPatch (el : ellipse)
| PSetXLabel (label : string)
| PSetYLabel (label : string)
| PLegend (loc : Z) (framealpha : R)
| PSetTitle (title : string).

Definition pfigure : Type := list partist.

Inductive pevent : Type :=
| PSubplots (aspect : string) (figsize : option (R * R))
| PShow (fig : pfigure).

Definition np_mean (l : list R) : R := fold_right Rplus 0 l / INR (List.length l).

Definition list_min (l : list R) : result R :=
  match l with
  | [] => raise ValueError
  | x :: rest => ok (fold_right Rmin x rest)
  end.

Definition list_max (l : list R) : result R :=
  match l with
  | [] => raise ValueError
  | x :: rest => ok (fold_right Rmax x rest)
  end.

(** [np.min([a, b])] and [np.max([a, b])]: the two rows must be as long
    as each other to make an array, and an empty array has no minimum. *)
Definition np_min2 (a b : list R) : result R :=
  if Nat.eqb (List.length a) (List.length b) then list_min (a ++ b)%list
  else raise ValueError.
Definition np_max2 (a b : list R) : result R :=
  if Nat.eqb (List.length a) (List.length b) then list_max (a ++ b)%list
  else raise ValueError.

(** [np.linspace(start, stop)]: 50 points, the ends included. *)
Definition np_linspace (start stop : R) : list R :=
  map (fun i => start + INR i * ((stop - start) / 49)) (seq 0 50).

(** A change made to the patch at position [i] of a figure: the object
    that the axes hold is the one that the code changes. *)
Fixpoint update_patch (fig : pfigure) (i : nat) (f : ellipse -> ellipse) : pfigure :=
  match fig, i with
  | [], _ => []
  | PPatch el :: rest, O => PPatch (f el) :: rest
  | a :: rest, O => a :: rest
  | a :: rest, S i' => a :: update_patch rest i' f
  end.

Definition pdraw (a : partist) : SE pfigure unit :=
  fun fig => (inr tt, (fig ++ [a])%list).

(** [ax.add_artist(el)]; the answer is the place of [el] on the axes. *)
Definition add_artist (el : ellipse) : SE pfigure nat :=
  fun fig => (inr (List.length fig), (fig ++ [PPatch el])%list).

Definition set_patch (i : nat) (f : ellipse -> ellipse) : SE pfigure unit :=
  fun fig => (inr tt, update_patch fig i f).

Definition pemit (ev : pevent) : SE (list pevent) unit :=
  fun w => (inr tt, (w ++ [ev])%list).

Definition on_new_pfigure (m : SE pfigure unit) : SE (list pevent) pfigure :=
  fun w =>
    match m [] with
    | (inl e, _) => (inl e, w)
    | (inr _, fig) => (inr fig, w)
    end.

Definition plot_poincare (working_data : poincare) (measures : sd_measures)
    (show : bool) (figsize : option (R * R)) (title : string)
    : SE (list pevent) (option pfigure) :=
  (* get values from dict *)
  let x_plus := x_plus working_data in
  let x_minus := x_minus working_data in
  let sd1 := sd1 measures in
  let sd2 := sd2 measures in
  (* define figure *)
  pemit (PSubplots "equal" figsize) ;;;
  fig <~ on_new_pfigure (
    (* plot scatter *)
    pdraw (PScatter x_plus x_minus (Palette 0) (75 / 100) "peak-peak intervals") ;;;
    (* plot identity line *)
    mins <~ lift (np_min2 x_plus x_minus) ;;
    maxs <~ lift (np_max2 x_plus x_minus) ;;
    let identity_line := np_linspace mins maxs in
    pdraw (PPlot identity_line identity_line (Named "black") (Some (5 / 10))
             "identity line") ;;;
    (* rotate SD1, SD2 vectors 45 degrees counterclockwise *)
    let '(sd1_xrot, sd1_yrot) := rotate_vec 0 sd1 45 in
    let '(sd2_xrot, sd2_yrot) := rotate_vec 0 sd2 45 in
    (* plot rotated SD1, SD2 lines *)
    pdraw (PPlot [np_mean x_plus; np_mean x_plus + sd1_xrot]
             [np_mean x_minus; np_mean x_minus + sd1_yrot]
             (Palette 1) None "SD1") ;;;
    pdraw (PPlot [np_mean x_plus; np_mean x_plus - sd2_xrot]
             [np_mean x_minus; np_mean x_minus + sd2_yrot]
             (Palette 2) None "SD2") ;;;
    (* plot ellipse *)
    let xmn := np_mean x_plus in
    let ymn := np_mean x_minus in
    let el := {| el_center := (xmn, ymn); el_width := sd2 * 2;
                 el_height := sd1 * 2; el_angle := 45;
                 el_edgecolor := None; el_fill := true |} in
    el_ref <~ add_artist el ;;
    set_patch el_ref (fun e =>
      {| el_center := el_center e; el_width := el_width e;
         el_height := el_height e; el_angle := el_angle e;
         el_edgecolor := Some (0, 0, 0); el_fill := el_fill e |}) ;;;
    set_patch el_ref (fun e =>
      {| el_center := el_center e; el_width := el_width e;
         el_height := el_height e; el_angle := el_angle e;
         el_edgecolor := el_edgecolor e; el_fill := false |}) ;;;
    pdraw (PSetXLabel "RRi_n (ms)") ;;;
    pdraw (PSetYLabel "RRi_n+1 (ms)") ;;;
    pdraw (PLegend 4 (6 / 10)) ;;;
    pdraw (PSetTitle title)) ;;
  if show then pemit (PShow fig) ;;; retS None
  else retS (Some fig).

Local Close Scope R_scope.

(** ** [plot_breathing] and [plot_psd]

    Both draw on axes of their own kind: a figure is the list of the
    calls made on its axes, each with the index of the axes it is made
    on.  As everywhere, a call on the axes is recorded with its
    arguments; what matplotlib makes of them lies outside the module. *)

Inductive panel_artist : Type :=
| PnPlot (x : option pyval) (y : pyval) (fmt : option string) (label : option string)
| PnSetXLabel (label : string)
| PnSetYLabel (label : string)
| PnSetTitle (title : string)
| PnSetXLim (left right : Q)
| PnAxVSpan (xmin xmax : Q) (alpha : Q) (c : string)
| PnText (x : Q) (y : pyval) (text : string) (horizontalalignment : string)
| PnLegend.

Definition panels : Type := list (nat * panel_artist).

Inductive panel_event : Type :=
| PnSubplots (nrows ncols : nat) (figsize : option (Q * Q))
| PnTightLayout
| PnShow (fig : panels).

Definition pn_emit (ev : panel_event) : SE (list panel_event) unit :=
  fun w => (inr tt, (w ++ [ev])%list).

Definition pn_draw (ax : nat) (a : panel_artist) : SE panels unit :=
  fun fig => (inr tt, (fig ++ [(ax, a)])%list).

Definition on_new_panels (m : SE panels unit) : SE (list panel_event) panels :=
  fun w =>
    match m [] with
    | (inl e, _) => (inl e, w)
    | (inr _, fig) => (inr fig, w)
    end.

Definition plot_breathing (working_data measures : pydict) (show : bool)
    (figsize : option (Q * Q)) : SE (list panel_event) (option panels) :=
  pn_emit (PnSubplots 2 1 figsize) ;;;
  fig <~ on_new_panels (
    (y <~ lift (dict_get working_data "breathing_signal") ;;
     pn_draw 1 (PnPlot None y None (Some "breathing signal"))) ;;;
    pn_draw 1 (PnSetXLabel "ms") ;;;
    pn_draw 1 (PnSetTitle "breathing signal extracted from RR-intervals") ;;;
    (x <~ lift (dict_get working_data "breathing_frq") ;;
     y <~ lift (dict_get working_data "breathing_psd") ;;
     pn_draw 2 (PnPlot (Some x) y None (Some "spectrogram"))) ;;;
    pn_draw 2 (PnSetXLim 0 1) ;;;
    pn_draw 2 (PnSetXLabel "Hz") ;;;
    pn_draw 2 (PnSetTitle "spectrogram extracted from breathing rate signal") ;;;
    pn_draw 2 PnLegend) ;;
  pn_emit PnTightLayout ;;;
  if show then pn_emit (PnShow fig) ;;; retS None
  else retS (Some fig).

(** The greatest of the numbers [x :: rest]; of equal ones the first. *)
Fixpoint greatest (x : pyval) (qx : Q) (rest : list pyval) : result pyval :=
  match rest with
  | [] => ok x
  | y :: rest' =>
      qy <- as_number y ;;
      if Qle_bool qy qx then greatest x qx rest' else greatest y qy rest'
  end.

(** [v.max()]: the method of an [ndarray]; an array without items has no
    maximum, and a [list], a [tuple], a [str], [None] and the numbers of
    Python have no such method. *)
Definition array_max (v : pyval) : result pyval :=
  match v with
  | VArray [] => raise ValueError
  | VArray (x :: rest) => qx <- as_number x ;; greatest x qx rest
  | _ => raise AttributeError
  end.

Definition plot_psd (working_data : pydict) (show : bool)
    (figsize : option (Q * Q)) : SE (list panel_event) (option panels) :=
  (* plot the periodogram of RR intervals *)
  pn_emit (PnSubplots 1 1 figsize) ;;;
  fig <~ on_new_panels (
    pn_draw 1 (PnSetXLabel "frequency [Hz]") ;;;
    pn_draw 1 (PnSetYLabel "PSD [ms^2/Hz]") ;;;
    pn_draw 1 (PnSetTitle "RRi Spectrum") ;;;
    pn_draw 1 (PnSetXLim 0 (42 # 100)) ;;;
    (x <~ lift (dict_get working_data "frq") ;;
     y <~ lift (dict_get working_data "psd") ;;
     pn_draw 1 (PnPlot (Some x) y (Some "k-") None)) ;;;
    (* colorize regions *)
    pn_draw 1 (PnAxVSpan (33 # 10000) (4 # 100) (3 # 10) "tab:blue") ;;;
    pn_draw 1 (PnAxVSpan (4 # 100) (15 # 100) (3 # 10) "tab:gray") ;;;
    pn_draw 1 (PnAxVSpan (15 # 100) (40 # 100) (3 # 10) "tab:orange") ;;;
    (* label regions *)
    dmax <~ lift (psd <- dict_get working_data "psd" ;; array_max psd) ;;
    pn_draw 1 (PnText (21 # 1000) dmax "VLF" "center") ;;;
    pn_draw 1 (PnText (95 # 1000) dmax "LF" "center") ;;;
    pn_draw 1 (PnText (275 # 1000) dmax "HF" "center")) ;;
  if show then pn_emit (PnShow fig) ;;; retS None
  else retS (Some fig).

(** ** Vocabulary of the statements *)

(** The names of the image files that a log records, the oldest first. *)
Fixpoint saved_files (l : list event) : list string :=
  match l with
  | [] => []
  | FigSavefig fname _ :: rest => fname :: saved_files rest
  | _ :: rest => saved_files rest
  end.

(** The directories that a log records the creation of. *)
Fixpoint made_dirs (l : list event) : list string :=
  match l with
  | [] => []
  | MakeDirs path :: rest => path :: made_dirs rest
  | _ :: rest => made_dirs rest
  end.

(** The path lacks the separator that [segment_plotter] looks for. *)
Definition missing_separator (path : string) : bool :=
  negb (endswith path "/" || endswith path "\") && (0 <? String.length path)%nat.

Definition isdir (w : world) (path : string) : bool :=
  existsb (String.eqb path) (dirs w).

(** The exceptions of a failed subscript. *)
Definition is_lookup_error (e : exn) : bool :=
  match e with
  | KeyError _ | IndexError | TypeError => true
  | _ => false
  end.

Definition is_assertion_error (e : exn) : bool :=
  match e with
  | AssertionError _ => true
  | _ => false
  end.

(** A record of [n] segments, each with the fields that [plotter] draws. *)
Definition segment_record (n : nat) : pydict :=
  let each (v : pyval) := VList (repeat v n) in
  [("hr", each (VArray [VFloat 1; VFloat 2; VFloat 1]));
   ("peaklist", each (VList [VInt 1]));
   ("ybeat", each (VList [VFloat 2]));
   ("removed_beats", each (VArray []));
   ("removed_beats_y", each (VArray []));
   ("rolling_mean", each (VArray [VFloat 1; VFloat 1; VFloat 1]));
   ("sample_rate", each (VFloat 100))].

Definition segment_measures (n : nat) : pydict :=
  [("bpm", VList (repeat (VFloat 60) n))].

Definition empty_world : world := {| dirs := []; log := [] |}.

(** The world after further calls. *)
Definition logged (w : world) (evs : list event) : world :=
  {| dirs := dirs w; log := (log w ++ evs)%list |}.

(** [del d[k]] for a key that is present. *)
Fixpoint dict_del (d : pydict) (k : string) : pydict :=
  match d with
  | [] => []
  | (k', v) :: rest => if String.eqb k k' then rest else (k', v) :: dict_del rest k
  end.

(** Where the loop of [segment_plotter] stops when no end is given. *)
Definition stop_of (end_ : option Z) (segments : Z) : Z :=
  match end_ with
  | Some e => e
  | None => segments
  end.

(** The per-segment fields that the loop reads before [rolling_mean]. *)
Definition fields_before_rolling_mean : list string :=
  ["peaklist"; "ybeat"; "removed_beats"; "removed_beats_y"; "hr"].

(** The bounds of the band of an item: its entry 0 and its entry 1, when
    it has both and [ax.axvspan] takes both. *)
Definition span_of (segment : pyval) : option (pyval * pyval) :=
  match py_getitem segment 0, py_getitem segment 1 with
  | inr a, inr b =>
      match span_bound a, span_bound b with
      | inr _, inr _ => Some (a, b)
      | _, _ => None
      end
  | _, _ => None
  end.

(** The bands that the loop of [shade_rejected_segments] draws over the
    items of the field: one for each item that has a band, up to the
    first item that has none; that item ends the loop. *)
Fixpoint leading_bands (segments : list pyval) : list artist :=
  match segments with
  | [] => []
  | s :: rest =>
      match span_of s with
      | Some (a, b) => AxVSpan a b "red" (1 # 2) :: leading_bands rest
      | None => []
      end
  end.

(** An item with an entry 0 and an entry 1 of which one is a text. *)
Definition text_bounds (segment : pyval) : bool :=
  match py_getitem segment 0, py_getitem segment 1 with
  | inr (VStr _), inr _ | inr _, inr (VStr _) => true
  | _, _ => false
  end.

(** No item of the value has a text for a bound. *)
Definition no_text_bounds (v : pyval) : bool :=
  match py_items v with
  | inr l => negb (existsb text_bounds l)
  | inl _ => true
  end.

(** The item gets a band when the loop comes to it. *)
Definition has_band (segment : pyval) : bool :=
  match span_of segment with
  | Some _ => true
  | None => false
  end.

Definition bands_of (field : result pyval) : list artist :=
  match field with
  | inr v =>
      match py_items v with
      | inr l => leading_bands l
      | inl _ => []
      end
  | inl _ => []
  end.

Definition is_band (a : artist) : bool :=
  match a with
  | AxVSpan _ _ _ _ => true
  | _ => false
  end.

Definition is_pair_of_numbers (v : pyval) : bool :=
  match v with
  | VList [a; b] | VTuple [a; b] | VArray [a; b] =>
      match as_number a, as_number b with
      | inr _, inr _ => true
      | _, _ => false
      end
  | _ => false
  end.

(** The field [rejected_segments] as the data model has it: a sequence
    of pairs of numbers. *)
Definition well_formed_segments (v : pyval) : bool :=
  match v with
  | VList l | VTuple l | VArray l => forallb is_pair_of_numbers l
  | _ => false
  end.

(** A record that [plotter] draws, with no field [rejected_segments]. *)
Definition signal_record : pydict :=
  [("sample_rate", VFloat 100);
   ("hr", VArray [VFloat 1; VFloat 2; VFloat 3]);
   ("peaklist", VList [VInt 1]);
   ("ybeat", VList [VFloat 2]);
   ("removed_beats", VArray [VInt 2]);
   ("removed_beats_y", VArray [VFloat 3])].

Definition signal_measures : pydict := [("bpm", VFloat (72345 # 1000))].

(** The text of a number of the report: what stands for its sign, then
    its digits in the general format at [digits] significant digits, the
    zeros after the point kept. *)
Definition number_text (positive_sign : string) (digits : nat) (q : Q) : string :=
  (if Qnum q <? 0 then "-" else positive_sign)
    ++ general_digits true digits (Qabs q).

(** Left-aligned text in a column of [width] characters. *)
Definition column (width : nat) (text : string) : string :=
  text ++ repeat_char " " (width - String.length text).

(** A row of the table: the label in 14 columns, a blank, and in 15
    columns the number at 3 significant digits, with a blank where a
    positive sign would be. *)
Definition table_row (label : string) (q : Q) : string :=
  column 14 label ++ " " ++ column 15 (number_text " " 3 q) ++ nl.

(** A row of the CSV file: the label, a comma, and the number at
    [digits] significant digits, with nothing where a positive sign
    would be. *)
Definition csv_row (digits : nat) (label : string) (q : Q) : string :=
  label ++ "," ++ number_text "" digits q ++ nl.

Definition metric_row (csvfile : bool) (label : string) (q : Q) : string :=
  if csvfile then csv_row 9 label q else table_row label q.

Definition summary_row (csvfile : bool) (label : string) (q : Q) : string :=
  if csvfile then csv_row 3 label q else table_row label q.

Definition header_rows (csvfile : bool) : string :=
  if csvfile then "Measure,Value" ++ nl ++ "-----------,---------" ++ nl
  else column 14 "Measure" ++ " " ++ column 15 "Value" ++ nl
       ++ column 14 "-----------" ++ " " ++ column 15 "---------" ++ nl.

(** The measures of a record are numbers [qs], key by key. *)
Fixpoint numbers_of (measures : pydict) : result (list (string * Q)) :=
  match measures with
  | [] => ok []
  | (k, v) :: rest =>
      q <- as_number v ;; qs <- numbers_of rest ;; ok ((k, q) :: qs)
  end.

Fixpoint metric_rows (csvfile : bool) (items : list (string * Q)) : string :=
  match items with
  | [] => ""
  | (k, q) :: rest => metric_row csvfile (label_formatter k) q ++ metric_rows csvfile rest
  end.


(** The scenario of the specification. *)
Definition scenario_measures : pydict :=
  [("bpm", VFloat (72345 # 1000)); ("sdnn", VFloat (451 # 10))].
Definition scenario_record : pydict :=
  [("best", VFloat 30); ("removed_beats", VList [VInt 1; VInt 2]);
   ("RR_list", VList (repeat (VInt 800) 50))].

Definition sd_scenario : sd_measures := {| sd1 := 10%R; sd2 := 20%R |}.

(** The ellipse of a Poincare plot as [plot_poincare] leaves it. *)
Definition sd_ellipse (center : R * R) (width height : R) : ellipse :=
  {| el_center := center; el_width := width; el_height := height;
     el_angle := 45%R; el_edgecolor := Some (0, 0, 0)%R; el_fill := false |}.

(** The fields that [plotter] reads before it opens a figure, in the
    order in which it reads them. *)
Definition required_fields : list string :=
  ["sample_rate"; "hr"; "peaklist"; "ybeat"; "removed_beats"; "removed_beats_y"].

(** The first of [keys] that the record lacks. *)
Fixpoint first_missing (d : pydict) (keys : list string) : option string :=
  match keys with
  | [] => None
  | k :: rest =>
      match dict_get d k with
      | inl _ => Some k
      | inr _ => first_missing d rest
      end
  end.

(** The band of a segment [(a, b)]. *)
Definition band_of (segment : pyval) : list artist :=
  match py_getitem segment 0, py_getitem segment 1 with
  | inr a, inr b => [AxVSpan a b "red" (1 # 2)]
  | _, _ => []
  end.

(** The calls that a log gained. *)
Definition gained (w w' : world) (evs : list event) : Prop :=
  dirs w' = dirs w /\ log w' = (log w ++ evs)%list.

(** The exception of [format] for a value that is no number, under a
    presentation type of floats. *)
Definition format_error (v : pyval) : exn :=
  match v with
  | VStr _ => ValueError
  | _ => TypeError
  end.

(** How often the character [c] stands in [s]. *)
Fixpoint count_char (c : ascii) (s : string) : nat :=
  match s with
  | EmptyString => O
  | String c' rest => ((if Ascii.eqb c' c then 1 else 0) + count_char c rest)%nat
  end.

Definition newline : ascii := ascii_of_nat 10.

(** The keys that [report] reads of the working data. *)
Definition report_fields : list string := ["best"; "removed_beats"; "RR_list"].

(** The keys that [plot_breathing] reads, in the order in which it reads
    them. *)
Definition breathing_fields : list string :=
  ["breathing_signal"; "breathing_frq"; "breathing_psd"].

(** The bands of a figure of [plot_psd], and the places of its texts. *)
Fixpoint spans_of (fig : panels) : list (Q * Q) :=
  match fig with
  | [] => []
  | (_, PnAxVSpan lo hi _ _) :: rest => (lo, hi) :: spans_of rest
  | _ :: rest => spans_of rest
  end.

Fixpoint texts_of (fig : panels) : list (Q * pyval) :=
  match fig with
  | [] => []
  | (_, PnText x y _ _) :: rest => (x, y) :: texts_of rest
  | _ :: rest => texts_of rest
  end.

(** The bands follow one another without a gap. *)
Fixpoint contiguous (spans : list (Q * Q)) : Prop :=
  match spans with
  | (_, hi) :: (((lo, _) :: _) as rest) => hi == lo /\ contiguous rest
  | _ => True
  end.


(** * Properties *)

(** ** Runs of the model *)

Example range_of_five_by_two : py_range 0 5 2 = [0; 2; 4].
Proof. reflexivity. Qed.

Example range_from_negative : py_range (-3) 5 3 = [-3; 0; 3].
Proof. reflexivity. Qed.

Example last_item_by_negative_index :
  py_getitem (VList [VInt 10; VInt 20; VInt 30]) (-1) = ok (VInt 30).
Proof. reflexivity. Qed.

Example list_has_no_division : py_div (VList []) (VFloat 100) = raise TypeError.
Proof. reflexivity. Qed.

Example array_division :
  py_div (VArray [VInt 150; VInt 25]) (VFloat 100)
  = ok (VArray [VFloat (3 # 2); VFloat (1 # 4)]).
Proof. reflexivity. Qed.

Example table_specification :
  parse_spec "< #15.3g"
  = Some {| fs_fill := None; fs_align := Some AlignLeft; fs_sign := Some SignSpace;
            fs_alt := true; fs_zero := false; fs_width := Some 15%nat;
            fs_precision := Some 3%nat; fs_type := Some "g"%char |}.
Proof. reflexivity. Qed.

Example csv_specifications :
  parse_spec "#.9g"
  = Some {| fs_fill := None; fs_align := None; fs_sign := None;
            fs_alt := true; fs_zero := false; fs_width := None;
            fs_precision := Some 9%nat; fs_type := Some "g"%char |}
  /\ parse_spec "#0.3g"
  = Some {| fs_fill := None; fs_align := None; fs_sign := None;
            fs_alt := true; fs_zero := true; fs_width := None;
            fs_precision := Some 3%nat; fs_type := Some "g"%char |}.
Proof. split; reflexivity. Qed.

Example general_format_cases :
  map (fun q => general_digits true 3 q)
    [72345 # 1000; 4 # 1; 0 # 1; 5 # 1000000; 123456789 # 1; 9995 # 100; 1 # 8]
  = ["72.3"; "4.00"; "0.00"; "5.00e-06"; "1.23e+08"; "100."; "0.125"]
  /\ general_digits false 6 (1 # 8) = "0.125"
  /\ general_digits false 6 (100 # 1) = "100"
  /\ general_digits true 9 (999999 # 1000000000) = "0.000999999000".
Proof. vm_compute. repeat split. Qed.

Example negative_number_in_table :
  str_format (table_fmt false) [VStr "x"; VFloat (- (5 # 2))]
  = ok ("x              -2.50          " ++ nl).
Proof. vm_compute. reflexivity. Qed.

Example beats_per_minute_label :
  percent_2f (VFloat (72345 # 1000)) = ok "72.34"
  /\ percent_2f (VInt 60) = ok "60.00".
Proof. vm_compute. split; reflexivity. Qed.

Example labels :
  map label_formatter ["ibi"; "pnn20"; "lf_nu"; "bpm"; "sd1/sd2"]
  = ["IBI (ms)"; "pNN20"; "LF (nu)"; "BPM"; "SD1/SD2"].
Proof. reflexivity. Qed.

Example signal_plot :
  plotter signal_record signal_measures false None default_title false empty_world
  = (inr (Some
       [SetTitle default_title;
        PlotLine (VArray [VFloat 0; VFloat (1 # 100); VFloat (1 # 50)])
          (VArray [VFloat 1; VFloat 2; VFloat 3]) (Palette 0)
          (Some "heart rate signal") None (Some (-10));
        SetXLabel "Time (s)";
        Scatter (VArray [VFloat (1 # 100)]) (VList [VFloat 2]) (Palette 1) "BPM:72.34";
        Scatter (VArray [VFloat (1 # 50)]) (VArray [VFloat 3]) (Palette 2)
          "rejected peaks";
        Legend 4 (3 # 5)]),
     {| dirs := []; log := [PltSubplots None] |}).
Proof. vm_compute. reflexivity. Qed.

(** ** Subscripts and dictionaries *)

Lemma dict_get_error (d : pydict) (k : string) (e : exn) :
  dict_get d k = inl e -> e = KeyError k.
Proof.
  induction d as [|[k' v] d IH]; simpl.
  - intros H; inversion H; reflexivity.
  - destruct (String.eqb k k'); [discriminate | exact IH].
Qed.

Lemma py_items_error (v : pyval) (e : exn) :
  py_items v = inl e -> e = TypeError.
Proof. destruct v; simpl; intros H; inversion H; reflexivity. Qed.

Lemma py_len_error (v : pyval) (e : exn) :
  py_len v = inl e -> e = TypeError.
Proof.
  unfold py_len. destruct (py_items v) eqn:E; [|discriminate].
  intros H; inversion H; subst. eapply py_items_error; eassumption.
Qed.

Lemma py_getitem_error (v : pyval) (i : Z) (e : exn) :
  py_getitem v i = inl e -> e = TypeError \/ e = IndexError.
Proof.
  unfold py_getitem. destruct (py_items v) eqn:E.
  - intros H; inversion H; subst. left. eapply py_items_error; eassumption.
  - destruct (_ || _).
    + intros H; inversion H; auto.
    + destruct (nth_error _ _); intros H; inversion H; auto.
Qed.

Lemma subscript2_error (d : pydict) (k : string) (i : Z) (e : exn) :
  subscript2 d k i = inl e -> is_lookup_error e = true.
Proof.
  unfold subscript2. destruct (dict_get d k) eqn:E.
  - intros H; inversion H; subst. apply dict_get_error in E. subst. reflexivity.
  - intros H. apply py_getitem_error in H. destruct H; subst; reflexivity.
Qed.

(** ** [plotter] reads the sampling rate first *)

Lemma plotter_without_sample_rate wd measures show figsize title ma w e :
  dict_get wd "sample_rate" = inl e ->
  plotter wd measures show figsize title ma w = (inl e, w).
Proof.
  intros H. unfold plotter, bindS, lift. rewrite H. reflexivity.
Qed.

(** ** One turn of the loop of [segment_plotter]

    The transient record that [plot_segment] builds has no key
    [sample_rate], and [plotter] reads that key before anything else. *)

Lemma plot_segment_raises wd measures figsize path i filenum w :
  exists e,
    is_lookup_error e = true /\
    (plot_segment wd measures figsize path i filenum w = (inl e, w) \/
     plot_segment wd measures figsize path i filenum w
       = (inl e, logged w [PltFigure figsize])).
Proof.
  unfold plot_segment, bindS, lift.
  repeat match goal with
  | |- context [subscript2 ?d ?k i] =>
      lazymatch k with
      | "rejected_segments" => fail
      | _ =>
        let E := fresh "E" in
        destruct (subscript2 d k i) eqn:E;
        [ eexists; split; [eapply subscript2_error; exact E | left; reflexivity] | ]
      end
  end.
  exists (KeyError "sample_rate"). split; [reflexivity|]. right.
  unfold try_except, retS, emit, logged.
  destruct (subscript2 wd "rejected_segments" i); cbv beta iota;
    rewrite plotter_without_sample_rate with (e := KeyError "sample_rate")
      by reflexivity;
    reflexivity.
Qed.

Lemma segment_loop_nil wd measures figsize path filenum w :
  segment_loop wd measures figsize path [] filenum w = (inr tt, w).
Proof. reflexivity. Qed.

Lemma segment_loop_cons wd measures figsize path i rest filenum w :
  segment_loop wd measures figsize path (i :: rest) filenum w
  = plot_segment wd measures figsize path i filenum w.
Proof.
  simpl. unfold bindS.
  destruct (plot_segment_raises wd measures figsize path i filenum w)
    as [e [_ [H|H]]]; rewrite H; reflexivity.
Qed.

Lemma saved_files_app (l1 l2 : list event) :
  saved_files (l1 ++ l2) = (saved_files l1 ++ saved_files l2)%list.
Proof.
  induction l1 as [|ev l1 IH]; simpl; [reflexivity|].
  destruct ev; simpl; rewrite ?IH; reflexivity.
Qed.

Lemma made_dirs_app (l1 l2 : list event) :
  made_dirs (l1 ++ l2) = (made_dirs l1 ++ made_dirs l2)%list.
Proof.
  induction l1 as [|ev l1 IH]; simpl; [reflexivity|].
  destruct ev; simpl; rewrite ?IH; reflexivity.
Qed.

(** ** The blocks of [segment_plotter] *)

Lemma output_path_eq (path : string) (w : world) :
  output_path path w =
    if missing_separator path then
      if isdir w (path ++ "/") then (inr (path ++ "/"), w)
      else (inr (path ++ "/"),
            {| dirs := (path ++ "/") :: dirs w;
               log := (log w ++ [MakeDirs (path ++ "/")])%list |})
    else (inr path, w).
Proof.
  unfold output_path, missing_separator, isdir.
  destruct (negb _ && _); [|reflexivity].
  unfold bindS, os_path_isdir, os_makedirs, retS.
  destruct (existsb _ (dirs w)) eqn:E; simpl; [reflexivity|].
  rewrite E. reflexivity.
Qed.

Lemma segment_plotter_checked wd measures title figsize path start end_ step w hr S :
  dict_get wd "hr" = ok hr -> py_len hr = ok S ->
  0 < step < S -> (forall e, end_ = Some e -> e <= S) ->
  segment_plotter wd measures title figsize path start end_ step w =
    (path' <~ output_path path ;;
     segment_loop wd measures figsize path' (py_range start (stop_of end_ S) step) 0) w.
Proof.
  intros Hhr Hlen [H0 H1] Hend.
  unfold segment_plotter, bindS, lift. rewrite Hhr. unfold ok in *. rewrite Hlen.
  destruct (Z.ltb_spec 0 step); [|lia].
  destruct (Z.ltb_spec step S); [|lia].
  simpl. destruct end_ as [e|]; simpl; [|reflexivity].
  destruct (Z.leb_spec e S); [reflexivity|].
  specialize (Hend e eq_refl). lia.
Qed.

Lemma segment_loop_outcome wd measures figsize path indices filenum w :
  match indices with
  | [] => segment_loop wd measures figsize path indices filenum w = (inr tt, w)
  | _ :: _ =>
      exists e, is_lookup_error e = true /\
        (segment_loop wd measures figsize path indices filenum w = (inl e, w) \/
         segment_loop wd measures figsize path indices filenum w
           = (inl e, logged w [PltFigure figsize]))
  end.
Proof.
  destruct indices as [|i rest]; [reflexivity|].
  rewrite segment_loop_cons. apply plot_segment_raises.
Qed.

Lemma segment_loop_world wd measures figsize path indices filenum w :
  let w' := snd (segment_loop wd measures figsize path indices filenum w) in
  dirs w' = dirs w /\ saved_files (log w') = saved_files (log w)
  /\ made_dirs (log w') = made_dirs (log w).
Proof.
  pose proof (segment_loop_outcome wd measures figsize path indices filenum w) as H.
  destruct indices as [|i rest].
  - rewrite H. simpl. auto.
  - destruct H as [e [_ [H|H]]]; rewrite H; simpl; auto.
    rewrite saved_files_app, made_dirs_app. simpl. rewrite !app_nil_r. auto.
Qed.

Lemma segment_loop_no_assertion wd measures figsize path indices filenum w msg :
  fst (segment_loop wd measures figsize path indices filenum w)
    <> inl (AssertionError msg).
Proof.
  pose proof (segment_loop_outcome wd measures figsize path indices filenum w) as H.
  destruct indices as [|i rest].
  - rewrite H. discriminate.
  - destruct H as [e [He [H|H]]]; rewrite H; simpl; intros Heq;
      inversion Heq; subst; discriminate.
Qed.

Lemma segment_plotter_saves_nothing wd measures title figsize path start end_ step w :
  saved_files (log (snd (segment_plotter wd measures title figsize path start end_ step w)))
  = saved_files (log w).
Proof.
  unfold segment_plotter.
  unfold bindS at 1. 
  match goal with |- context [lift ?r w] => destruct r as [e|[]] end; simpl; [reflexivity|].
  unfold bindS at 1.
  match goal with |- context [lift ?r w] => destruct r as [e|stop] end; simpl; [reflexivity|].
  unfold bindS. rewrite output_path_eq.
  destruct (missing_separator path); [destruct (isdir w _)|];
  match goal with |- context [segment_loop ?a ?b ?c ?d ?e ?f ?g] =>
    destruct (segment_loop_world a b c d e f g) as [_ [H _]];
    destruct (segment_loop a b c d e f g) as [[?|?] ?] end; simpl in *; rewrite H; simpl;
  rewrite ?saved_files_app; simpl; rewrite ?app_nil_r; reflexivity.
Qed.

Lemma py_range_first (start stop step : Z) :
  0 < step -> start < stop ->
  exists rest, py_range start stop step = start :: rest.
Proof.
  intros Hs Hlt. unfold py_range.
  destruct (Z.ltb_spec start stop); [|lia].
  assert (Hn : 0 <= (stop - start - 1) / step) by (apply Z.div_pos; lia).
  destruct (Z.to_nat ((stop - start - 1) / step + 1)) as [|n] eqn:E; [lia|].
  simpl. eexists. f_equal. lia.
Qed.

Lemma py_range_empty (start stop step : Z) :
  stop <= start -> py_range start stop step = [].
Proof.
  intros H. unfold py_range. destruct (Z.ltb_spec start stop); [lia|reflexivity].
Qed.

(** The indices that the loop visits: [start], [start + step], ... below
    [stop]. *)
Lemma py_range_spec (start stop step i : Z) :
  0 < step ->
  In i (py_range start stop step)
  <-> exists k, 0 <= k /\ i = start + k * step /\ i < stop.
Proof.
  intros Hstep. unfold py_range. rewrite in_map_iff. split.
  - intros [k [Hi Hk]]. apply in_seq in Hk. exists (Z.of_nat k).
    split; [lia|]. split; [lia|].
    destruct (Z.ltb_spec start stop) as [Hlt|Hge]; [|simpl in Hk; lia].
    assert (Hle : Z.of_nat k <= (stop - start - 1) / step).
    { assert (0 <= (stop - start - 1) / step) by (apply Z.div_pos; lia). lia. }
    assert (Hmul : Z.of_nat k * step <= stop - start - 1).
    { apply Z.le_trans with ((stop - start - 1) / step * step).
      - apply Z.mul_le_mono_nonneg_r; lia.
      - rewrite Z.mul_comm. apply Z.mul_div_le. lia. }
    lia.
  - intros [k [Hk [Hi Hlt]]]. exists (Z.to_nat k). split; [lia|].
    apply in_seq.
    assert (Hss : start < stop) by nia.
    destruct (Z.ltb_spec start stop) as [_|Hge]; [|lia].
    assert (Hle : k <= (stop - start - 1) / step).
    { apply Z.div_le_lower_bound; [lia|]. nia. }
    lia.
Qed.

(** C1 (defect of the code).  The batch driver is to write one image per
    visited segment, [{path}0.png], [{path}1.png], ...  It writes none:
    the record that it hands to [plotter] for a segment has no key
    [sample_rate], which [plotter] reads first.  With five segments,
    start 0, no end and step 2, where three files are expected, the call
    stops at the first segment with [KeyError] after it has made the
    directory and opened one figure; and no call whatever saves a file. *)
Theorem segment_plotter_writes_no_file :
  segment_plotter (segment_record 5) (segment_measures 5) default_title
      (Some (6%Q, 6%Q)) "out" 0 None 2 empty_world
    = (inl (KeyError "sample_rate"),
       {| dirs := ["out/"];
          log := [MakeDirs "out/"; PltFigure (Some (6%Q, 6%Q))] |})
  /\ py_range 0 5 2 = [0; 2; 4]
  /\ forall wd measures title figsize path start end_ step w,
       saved_files
         (log (snd (segment_plotter wd measures title figsize path start end_ step w)))
       = saved_files (log w).
Proof.
  split; [vm_compute; reflexivity|].
  split; [reflexivity|].
  intros. apply segment_plotter_saves_nothing.
Qed.

(** C2.  With [S] segments, the driver raises [AssertionError], the
    invalid-argument error of the code, and leaves the world as it was
    (no figure, no directory, no file) whenever [step <= 0] or
    [step >= S] or an explicit end exceeds [S]; and with
    [0 < step < S] and an end of at most [S] it does not raise that
    error. *)
Theorem segment_plotter_argument_checks
    wd measures title figsize path start end_ step w hr S :
  dict_get wd "hr" = ok hr -> py_len hr = ok S ->
  let run := segment_plotter wd measures title figsize path start end_ step w in
  ((step <= 0 \/ S <= step \/ (exists e, end_ = Some e /\ S < e)) ->
     exists msg, run = (inl (AssertionError msg), w))
  /\ ((0 < step < S /\ (forall e, end_ = Some e -> e <= S)) ->
     forall msg, fst run <> inl (AssertionError msg)).
Proof.
  intros Hhr Hlen run. split.
  - intros Hbad. subst run. unfold segment_plotter, bindS, lift.
    rewrite Hhr. unfold ok in *. rewrite Hlen.
    destruct (Z.ltb_spec 0 step) as [H0|H0]; simpl.
    + destruct (Z.ltb_spec step S) as [H1|H1]; simpl.
      * destruct Hbad as [Hb|[Hb|[e [-> Hb]]]]; try lia.
        destruct (Z.leb_spec e S); [lia|]. simpl. eexists; reflexivity.
      * eexists; reflexivity.
    + eexists; reflexivity.
  - intros [Hstep Hend] msg. subst run.
    rewrite (segment_plotter_checked _ _ _ _ _ _ _ _ _ _ _ Hhr Hlen Hstep Hend).
    unfold bindS. rewrite output_path_eq.
    destruct (missing_separator path); [destruct (isdir w _)|];
      apply segment_loop_no_assertion.
Qed.

Lemma segment_plotter_argument_checks_witness :
  (exists msg,
     segment_plotter (segment_record 5) (segment_measures 5) default_title
       None "out" 0 None 5 empty_world = (inl (AssertionError msg), empty_world))
  /\ (forall msg,
        fst (segment_plotter (segment_record 5) (segment_measures 5) default_title
               None "out" 0 (Some 5) 2 empty_world) <> inl (AssertionError msg)).
Proof.
  split.
  - apply (proj1 (segment_plotter_argument_checks (segment_record 5)
             (segment_measures 5) default_title None "out" 0 None 5 empty_world
             _ 5 eq_refl eq_refl)).
    right; left; lia.
  - apply (proj2 (segment_plotter_argument_checks (segment_record 5)
             (segment_measures 5) default_title None "out" 0 (Some 5) 2 empty_world
             _ 5 eq_refl eq_refl)).
    split; [lia|]. intros e He. inversion He. lia.
Defined.

(** C3, as stated, fails: the caller gives [out/], with its separator,
    the directory does not exist, and after the call it still does not
    exist and no directory was made. *)
Lemma directory_not_made_behind_separator :
  let w' := snd (segment_plotter (segment_record 5) (segment_measures 5)
                   default_title None "out/" 0 None 1 empty_world) in
  endswith "out/" "/" = true
  /\ isdir empty_world "out/" = false
  /\ output_path "out/" empty_world = (inr "out/", empty_world)
  /\ isdir w' "out/" = false
  /\ made_dirs (log w') = [].
Proof. vm_compute. repeat split. Qed.

(** C3, amended.  When the arguments pass the checks: a path that is not
    empty and ends with neither [/] nor a backslash gets [/] appended,
    and the directory of that name is made if it is not there; an empty
    path, or one that ends with a separator, is used as it is and no
    directory is made for it. *)
Theorem output_directory_made_only_with_added_separator
    wd measures title figsize path start end_ step w hr S :
  dict_get wd "hr" = ok hr -> py_len hr = ok S ->
  0 < step < S -> (forall e, end_ = Some e -> e <= S) ->
  let run := segment_plotter wd measures title figsize path start end_ step w in
  let indices := py_range start (stop_of end_ S) step in
  if missing_separator path then
    run = segment_loop wd measures figsize (path ++ "/") indices 0
            (if isdir w (path ++ "/") then w
             else {| dirs := (path ++ "/") :: dirs w;
                     log := (log w ++ [MakeDirs (path ++ "/")])%list |})
    /\ isdir (snd run) (path ++ "/") = true
    /\ made_dirs (log (snd run))
       = (made_dirs (log w)
            ++ if isdir w (path ++ "/")%string then [] else [(path ++ "/")%string])%list
  else
    run = segment_loop wd measures figsize path indices 0 w
    /\ dirs (snd run) = dirs w
    /\ made_dirs (log (snd run)) = made_dirs (log w).
Proof.
  intros Hhr Hlen Hstep Hend run indices. subst run.
  rewrite (segment_plotter_checked _ _ _ _ _ _ _ _ _ _ _ Hhr Hlen Hstep Hend).
  unfold bindS. rewrite output_path_eq. fold indices.
  destruct (missing_separator path).
  - destruct (isdir w (path ++ "/")) eqn:E.
    + split; [reflexivity|].
      destruct (segment_loop_world wd measures figsize (path ++ "/") indices 0 w)
        as [Hd [_ Hm]].
      unfold isdir in *. rewrite Hd, Hm, app_nil_r. auto.
    + split; [reflexivity|].
      match goal with |- context [segment_loop _ _ _ _ _ _ ?w1] =>
        destruct (segment_loop_world wd measures figsize (path ++ "/") indices 0 w1)
          as [Hd [_ Hm]] end.
      unfold isdir in *. rewrite Hd, Hm. simpl. rewrite String.eqb_refl.
      rewrite made_dirs_app. auto.
  - split; [reflexivity|].
    destruct (segment_loop_world wd measures figsize path indices 0 w)
      as [Hd [_ Hm]]. auto.
Qed.

Lemma output_directory_made_only_with_added_separator_witness :
  let run := segment_plotter (segment_record 5) (segment_measures 5)
               default_title None "out" 0 None 1 empty_world in
  isdir (snd run) "out/" = true /\ made_dirs (log (snd run)) = ["out/"].
Proof.
  pose proof (output_directory_made_only_with_added_separator
                (segment_record 5) (segment_measures 5) default_title None "out"
                0 None 1 empty_world _ 5 eq_refl eq_refl) as H.
  simpl in H. apply H; [lia|discriminate].
Defined.

(** ** Dictionaries: a key set, a key read *)

Lemma dict_get_set_same (d : pydict) (k : string) (v : pyval) :
  dict_get (dict_set d k v) k = ok v.
Proof.
  induction d as [|[k' v'] d IH]; simpl.
  - rewrite String.eqb_refl. reflexivity.
  - destruct (String.eqb k k') eqn:E; simpl; rewrite E; [reflexivity|exact IH].
Qed.

Lemma dict_get_set_other (d : pydict) (k k' : string) (v : pyval) :
  String.eqb k' k = false ->
  dict_get (dict_set d k v) k' = dict_get d k'.
Proof.
  intros Hne. induction d as [|[k0 v0] d IH]; simpl.
  - rewrite Hne. reflexivity.
  - destruct (String.eqb k k0) eqn:E; simpl.
    + apply String.eqb_eq in E. subst k0. rewrite Hne. reflexivity.
    + rewrite IH. reflexivity.
Qed.


(** ** What [plotter] reads of its record *)

Lemma plotter_reads wd wd' measures show figsize title ma w :
  (forall k, In k ["sample_rate"; "hr"; "peaklist"; "ybeat"; "removed_beats";
                   "removed_beats_y"; "rejected_segments"] ->
             dict_get wd k = dict_get wd' k) ->
  (ma = true -> dict_get wd "rolling_mean" = dict_get wd' "rolling_mean") ->
  plotter wd measures show figsize title ma w
  = plotter wd' measures show figsize title ma w.
Proof.
  intros H Hrm. unfold plotter, shade_rejected_segments.
  rewrite !(H "sample_rate"), !(H "hr"), !(H "peaklist"), !(H "ybeat"),
    !(H "removed_beats"), !(H "removed_beats_y"), !(H "rejected_segments")
    by (simpl; tauto).
  destruct ma; [rewrite Hrm by reflexivity|]; reflexivity.
Qed.

Lemma plotter_ignores_rolling_mean wd measures show figsize title w v :
  plotter (dict_set wd "rolling_mean" v) measures show figsize title false w
  = plotter wd measures show figsize title false w.
Proof.
  apply plotter_reads; [|discriminate].
  intros k Hk. apply dict_get_set_other.
  simpl in Hk. repeat (destruct Hk as [<-|Hk]; [reflexivity|]). contradiction.
Qed.

Lemma py_getitem_beyond (v : pyval) (i n : Z) :
  py_len v = ok n -> 0 <= i -> n <= i -> py_getitem v i = raise IndexError.
Proof.
  unfold py_len, py_getitem. destruct (py_items v) as [e|l]; [discriminate|].
  intros H Hi Hn. inversion H; subst.
  destruct (Z.ltb_spec i 0); [lia|].
  destruct (Z.ltb_spec i 0); [lia|].
  destruct (Z.leb_spec (Z.of_nat (List.length l)) i); [|lia].
  reflexivity.
Qed.

(** C9.  With arguments that pass the checks and a first segment to
    visit, whose fields before [rolling_mean] are there: a record without
    the key [rolling_mean] makes the driver stop at that first segment
    with [KeyError], and one whose [rolling_mean] has no entry at that
    index with [IndexError]; no figure is opened and no file is saved.
    The value is read although it is not used: [plotter], called without
    its moving average, gives the same outcome whatever [rolling_mean]
    is. *)
Theorem segment_plotter_reads_rolling_mean
    wd measures title figsize path start end_ step w hr S :
  dict_get wd "hr" = ok hr -> py_len hr = ok S ->
  0 < step < S -> (forall e, end_ = Some e -> e <= S) ->
  0 <= start < stop_of end_ S ->
  (forall k, In k fields_before_rolling_mean ->
             exists v, subscript2 wd k start = ok v) ->
  let run := segment_plotter wd measures title figsize path start end_ step w in
  (dict_get wd "rolling_mean" = raise (KeyError "rolling_mean") ->
     fst run = inl (KeyError "rolling_mean")
     /\ snd run = snd (output_path path w))
  /\ (forall rm n, dict_get wd "rolling_mean" = ok rm -> py_len rm = ok n ->
        n <= start ->
        fst run = inl IndexError /\ snd run = snd (output_path path w))
  /\ saved_files (log (snd run)) = saved_files (log w)
  /\ (forall wd1 m1 v show fz t w1,
        plotter (dict_set wd1 "rolling_mean" v) m1 show fz t false w1
        = plotter wd1 m1 show fz t false w1).
Proof.
  intros Hhr Hlen Hstep Hend Hstart Hfields run.
  assert (Hrun : forall e, subscript2 wd "rolling_mean" start = inl e ->
                 run = (inl e, snd (output_path path w))).
  { intros e He. subst run.
    rewrite (segment_plotter_checked _ _ _ _ _ _ _ _ _ _ _ Hhr Hlen Hstep Hend).
    destruct (py_range_first start (stop_of end_ S) step) as [rest Hr]; [lia|lia|].
    rewrite Hr. unfold bindS at 1.
    destruct (output_path path w) as [[e0|path'] w1] eqn:Ho.
    { rewrite output_path_eq in Ho.
      destruct (missing_separator path); [destruct (isdir w _)|]; discriminate. }
    rewrite segment_loop_cons. unfold plot_segment, bindS, lift.
    destruct (Hfields "peaklist") as [v1 ->]; [simpl; tauto|].
    destruct (Hfields "ybeat") as [v2 ->]; [simpl; tauto|].
    destruct (Hfields "removed_beats") as [v3 ->]; [simpl; tauto|].
    destruct (Hfields "removed_beats_y") as [v4 ->]; [simpl; tauto|].
    destruct (Hfields "hr") as [v5 ->]; [simpl; tauto|].
    unfold ok. rewrite He. reflexivity. }
  split; [|split; [|split]].
  - intros Habs. rewrite (Hrun (KeyError "rolling_mean")); [auto|].
    unfold subscript2. rewrite Habs. reflexivity.
  - intros rm n Hrm Hn Hle. rewrite (Hrun IndexError); [auto|].
    unfold subscript2. rewrite Hrm.
    unfold ok. apply py_getitem_beyond with (n := n); [assumption|lia|lia].
  - apply segment_plotter_saves_nothing.
  - intros. apply plotter_ignores_rolling_mean.
Qed.

Lemma segment_plotter_reads_rolling_mean_witness :
  fst (segment_plotter (dict_del (segment_record 5) "rolling_mean")
         (segment_measures 5) default_title None "" 0 None 1 empty_world)
  = inl (KeyError "rolling_mean").
Proof.
  refine (proj1 (proj1 (segment_plotter_reads_rolling_mean
            (dict_del (segment_record 5) "rolling_mean") (segment_measures 5)
            default_title None "" 0 None 1 empty_world _ 5
            eq_refl eq_refl _ _ _ _) eq_refl)).
  - lia.
  - discriminate.
  - simpl. lia.
  - intros k Hk. simpl in Hk.
    repeat (destruct Hk as [<-|Hk]; [eexists; reflexivity|]). contradiction.
Defined.

(** ** The state monad: a step that succeeds *)

Section Steps.

Context {S A B : Type}.

Lemma bindS_ok (m : SE S A) (k : A -> SE S B) s b s' :
  bindS m k s = (inr b, s') ->
  exists a s1, m s = (inr a, s1) /\ k a s1 = (inr b, s').
Proof.
  unfold bindS. destruct (m s) as [[e|a] s1]; [discriminate|].
  intros H. exists a, s1. auto.
Qed.

Lemma lift_ok (r : result A) (s s' : S) a :
  lift r s = (inr a, s') -> r = inr a /\ s' = s.
Proof. unfold lift. intros H; inversion H; auto. Qed.

End Steps.

(** ** The [try] block of [plotter] never raises *)

Lemma ax_axvspan_eq (a b : pyval) (facecolor : string) (alpha : Q) (fig : figure) :
  ax_axvspan a b facecolor alpha fig
  = match span_bound a, span_bound b with
    | inr _, inr _ => (inr tt, (fig ++ [AxVSpan a b facecolor alpha])%list)
    | inl e, _ | inr _, inl e => (inl e, fig)
    end.
Proof.
  unfold ax_axvspan, bindS, lift, draw.
  destruct (span_bound a); [reflexivity|]. destruct (span_bound b); reflexivity.
Qed.

Lemma shade_loop (segments : list pyval) (fig : figure) :
  exists r,
    for_each segments (fun segment =>
        a <~ lift (py_getitem segment 0) ;;
        b <~ lift (py_getitem segment 1) ;;
        ax_axvspan a b "red" (1 # 2)) fig
    = (r, (fig ++ leading_bands segments)%list).
Proof.
  revert fig. induction segments as [|s rest IH]; intros fig; simpl.
  - eexists. unfold retS. rewrite app_nil_r. reflexivity.
  - unfold span_of. unfold bindS at 1. unfold bindS at 1, lift at 1.
    destruct (py_getitem s 0) as [e|a].
    { eexists. rewrite app_nil_r. reflexivity. }
    unfold bindS at 1, lift at 1.
    destruct (py_getitem s 1) as [e|b].
    { eexists. rewrite app_nil_r. reflexivity. }
    rewrite ax_axvspan_eq.
    destruct (span_bound a) as [e|[]].
    { eexists. rewrite app_nil_r. reflexivity. }
    destruct (span_bound b) as [e|[]].
    { eexists. rewrite app_nil_r. reflexivity. }
    destruct (IH (fig ++ [AxVSpan a b "red" (1 # 2)])%list) as [r Hr].
    rewrite Hr. exists r. rewrite <- app_assoc. reflexivity.
Qed.

Lemma shade_rejected_segments_eq wd (fig : figure) :
  shade_rejected_segments wd fig
  = (inr tt, (fig ++ bands_of (dict_get wd "rejected_segments"))%list).
Proof.
  unfold shade_rejected_segments, try_except, bands_of.
  unfold bindS at 1, lift at 1.
  destruct (dict_get wd "rejected_segments") as [e|rs].
  { unfold retS. rewrite app_nil_r. reflexivity. }
  unfold bindS at 1, lift at 1. unfold py_len.
  destruct (py_items rs) as [e|l].
  { unfold retS. rewrite app_nil_r. reflexivity. }
  unfold ok. cbv beta iota.
  destruct (Z.leb_spec 1 (Z.of_nat (List.length l))).
  - unfold bindS at 1, lift at 1. cbv beta iota.
    destruct (shade_loop l fig) as [r Hr].
    rewrite Hr. destruct r as [e|[]]; reflexivity.
  - destruct l; [|simpl in *; lia]. unfold retS. simpl. rewrite app_nil_r. reflexivity.
Qed.

Lemma on_new_figure_ok (m : SE figure unit) (w w' : world) (fig : figure) :
  on_new_figure m w = (inr fig, w') -> m [] = (inr tt, fig) /\ w' = w.
Proof.
  unfold on_new_figure. destruct (m []) as [[e|[]] f]; [discriminate|].
  intros H; inversion H; auto.
Qed.

Ltac invert_steps :=
  repeat match goal with
  | H : bindS _ _ _ = (inr _, _) |- _ =>
      let a := fresh "a" in let s := fresh "s" in let H1 := fresh "H" in
      apply bindS_ok in H; destruct H as (a & s & H1 & H)
  | H : emit _ _ = (inr _, _) |- _ => unfold emit in H; inversion H; subst; clear H
  | H : draw _ _ = (inr _, _) |- _ => unfold draw in H; inversion H; subst; clear H
  | H : retS _ _ = (inr _, _) |- _ => unfold retS in H; inversion H; subst; clear H
  | H : lift _ _ = (inr _, _) |- _ => apply lift_ok in H; destruct H as [H ->]
  | H : on_new_figure _ _ = (inr _, _) |- _ =>
      apply on_new_figure_ok in H; destruct H as [H ->]
  | H : shade_rejected_segments _ _ = _ |- _ =>
      rewrite shade_rejected_segments_eq in H; inversion H; subst; clear H
  end.

Lemma plotter_show wd measures figsize title ma w :
  plotter wd measures true figsize title ma w =
    match plotter wd measures false figsize title ma w with
    | (inr (Some fig), w1) => (inr None, logged w1 [FigShow fig])
    | other => other
    end.
Proof.
  unfold plotter, bindS, lift, emit, retS. cbv beta iota.
  repeat match goal with
  | |- context [match ?r with inl _ => _ | inr _ => _ end] =>
      lazymatch r with
      | context [on_new_figure] => fail
      | _ => destruct r; [reflexivity|]
      end
  end.
  match goal with |- context [on_new_figure ?m ?w1] =>
    destruct (on_new_figure m w1) as [[e|fig] w2] end; reflexivity.
Qed.

(** C8, as stated, fails: a field that is no sequence of pairs, its
    second item being a number, still gets the band of its first item. *)
Lemma malformed_segments_still_shaded :
  let v := VList [VList [VFloat 1; VFloat 2]; VInt 5] in
  well_formed_segments v = false
  /\ exists fig w',
       plotter (dict_set signal_record "rejected_segments" v) signal_measures
         false None default_title false empty_world = (inr (Some fig), w')
       /\ existsb is_band fig = true.
Proof.
  split; [reflexivity|]. eexists. eexists. split; [vm_compute; reflexivity|].
  reflexivity.
Qed.

(** The bands of the leading run of items that get one. *)
Lemma leading_bands_run (shaded : list pyval) :
  forallb has_band shaded = true ->
  leading_bands shaded = flat_map band_of shaded
  /\ List.length (leading_bands shaded) = List.length shaded
  /\ forall s skipped,
       has_band s = false ->
       leading_bands (shaded ++ s :: skipped) = flat_map band_of shaded.
Proof.
  induction shaded as [|x rest IH]; intros H.
  - split; [reflexivity|]. split; [reflexivity|].
    intros s skipped Hs. cbn [app leading_bands flat_map].
    unfold has_band in Hs. destruct (span_of s) as [[a b]|]; [discriminate|reflexivity].
  - cbn [forallb] in H. apply andb_prop in H. destruct H as [Hx Hrest].
    destruct (IH Hrest) as (IH1 & IH2 & IH3).
    assert (Hb : exists a b, span_of x = Some (a, b)
                             /\ band_of x = [AxVSpan a b "red" (1 # 2)]).
    { unfold has_band in Hx. unfold span_of, band_of in *.
      destruct (py_getitem x 0) as [e|a]; [discriminate|].
      destruct (py_getitem x 1) as [e|b]; [discriminate|].
      exists a, b. destruct (span_bound a); [discriminate|].
      destruct (span_bound b); [discriminate|]. split; reflexivity. }
    destruct Hb as (a & b & Hspan & Hband).
    cbn [app leading_bands flat_map List.length]. rewrite Hspan, Hband.
    cbn [app List.length]. split; [rewrite IH1; reflexivity|].
    split; [rewrite IH2; reflexivity|].
    intros s skipped Hs. rewrite (IH3 s skipped Hs). reflexivity.
Qed.

(** An item whose first bound is a list ends the loop: the pair of
    numbers that follows it gets no band. *)
Example pair_behind_malformed_item_not_shaded :
  bands_of (ok (VList [VList [VFloat 1; VFloat 2];
                       VList [VList [VInt 1; VInt 2]; VFloat 3];
                       VList [VFloat 4; VFloat 5]]))
  = [AxVSpan (VFloat 1) (VFloat 2) "red" (1 # 2)].
Proof. reflexivity. Qed.

(** C8, amended.  Take a record without the field [rejected_segments]
    that [plotter] draws: its figure has no band.  Put in the field any
    value that has no text for the bound of a band: [plotter] still
    raises nothing, and the figure is the same but for the bands
    [bands_of] of the value.  There is none when the value is no sequence
    or an empty one.  Otherwise the items get their bands one after the
    other as long as each has an entry 0 and an entry 1 that are numbers;
    the first item that has not, because it lacks an entry or because
    [ax.axvspan] raises on a bound that is a sequence or [None], ends
    the loop, and neither it nor any item behind it, well formed or not,
    gets a band. *)
Theorem plotter_tolerates_rejected_segments wd measures figsize title ma w fig w' :
  dict_get wd "rejected_segments" = raise (KeyError "rejected_segments") ->
  plotter wd measures false figsize title ma w = (inr (Some fig), w') ->
  existsb is_band fig = false
  /\ exists pre,
       fig = (pre ++ [Legend 4 (3 # 5)])%list
       /\ forall v,
            no_text_bounds v = true ->
            let fig_v := (pre ++ bands_of (ok v) ++ [Legend 4 (3 # 5)])%list in
            plotter (dict_set wd "rejected_segments" v) measures false figsize
              title ma w = (inr (Some fig_v), w')
            /\ plotter (dict_set wd "rejected_segments" v) measures true figsize
                 title ma w = (inr None, logged w' [FigShow fig_v])
            /\ (py_items v = raise TypeError -> fig_v = fig)
            /\ (py_items v = ok [] -> fig_v = fig)
            /\ (forall shaded,
                  py_items v = ok shaded -> forallb has_band shaded = true ->
                  bands_of (ok v) = flat_map band_of shaded
                  /\ List.length (bands_of (ok v)) = List.length shaded)
            /\ (forall shaded s skipped,
                  py_items v = ok (shaded ++ s :: skipped)%list ->
                  forallb has_band shaded = true -> has_band s = false ->
                  bands_of (ok v) = flat_map band_of shaded
                  /\ List.length (bands_of (ok v)) = List.length shaded).
Proof.
  intros Habs H.
  assert (Hother : forall v k, String.eqb k "rejected_segments" = false ->
            dict_get (dict_set wd "rejected_segments" v) k = dict_get wd k)
    by (intros; apply dict_get_set_other; assumption).
  assert (Hfalse : forall v,
            plotter (dict_set wd "rejected_segments" v) measures false figsize
              title ma w
            = (inr (Some ((removelast fig ++ bands_of (ok v))
                          ++ [Legend 4 (3 # 5)])%list), w')
            /\ fig = (removelast fig ++ [Legend 4 (3 # 5)])%list
            /\ existsb is_band fig = false).
  { intros v. unfold plotter in *. destruct ma; invert_steps;
      rewrite Habs; cbn [bands_of raise app removelast];
      rewrite !Hother by reflexivity;
      unfold bindS, lift, emit, on_new_figure, draw, retS; cbv beta iota;
      match goal with
      | Hhr : dict_get wd "hr" = inr _, Hx : context [np_arange] |- _ =>
          rewrite Hhr in Hx; cbv beta iota in Hx
      end;
      repeat (match goal with
              | Hx : ?l = inr _ |- context [?l] => rewrite Hx
              end; cbv beta iota);
      rewrite shade_rejected_segments_eq, dict_get_set_same;
      (split; [reflexivity|split; reflexivity]). }
  destruct (Hfalse VNone) as [_ [Hfig Hband]].
  split; [exact Hband|]. exists (removelast fig). split; [exact Hfig|].
  intros v _ fig_v. destruct (Hfalse v) as [Hv _].
  subst fig_v. rewrite app_assoc. split; [exact Hv|]. split; [|split; [|split; [|split]]].
  - rewrite plotter_show, Hv. reflexivity.
  - intros Hitems. unfold bands_of, ok. rewrite Hitems. rewrite app_nil_r.
    symmetry. exact Hfig.
  - intros Hitems. unfold bands_of, ok in *. rewrite Hitems. simpl.
    rewrite app_nil_r. symmetry. exact Hfig.
  - intros shaded Hitems Hall. unfold bands_of, ok in *. rewrite Hitems.
    destruct (leading_bands_run shaded Hall) as (H1 & H2 & _).
    split; [exact H1 | exact H2].
  - intros shaded s skipped Hitems Hall Hs. unfold bands_of, ok in *. rewrite Hitems.
    destruct (leading_bands_run shaded Hall) as (H1 & H2 & H3).
    rewrite (H3 s skipped Hs). split; [reflexivity|]. rewrite <- H1. exact H2.
Qed.

Lemma plotter_tolerates_rejected_segments_witness :
  let v := VList [VList [VFloat 1; VFloat 2];
                  VList [VList [VInt 1; VInt 2]; VFloat 3];
                  VList [VFloat 4; VFloat 5]] in
  exists fig w',
    plotter (dict_set signal_record "rejected_segments" v) signal_measures
      false None default_title false empty_world = (inr (Some fig), w')
    /\ List.length (filter is_band fig) = 1%nat.
Proof.
  intros v.
  destruct (plotter_tolerates_rejected_segments signal_record signal_measures
              None default_title false empty_world _ _ eq_refl eq_refl)
    as [Hband [pre [Hfig Hv]]].
  destruct (Hv v eq_refl) as [Hrun _].
  eexists. eexists. split; [exact Hrun|].
  apply (f_equal (@removelast artist)) in Hfig.
  rewrite (removelast_last pre) in Hfig. subst pre. reflexivity.
Defined.

(** C10.  [plotter] turns [peaklist] into an array before it divides it
    by the sampling rate, so that a plain list there plots as the array
    of the same items does; it divides [removed_beats] as it is, so that
    a record which plots with an array there raises [TypeError], after
    the figure is opened, with any plain list in its place. *)
Theorem plotter_converts_peaklist_only wd measures show figsize title ma w l :
  plotter (dict_set wd "peaklist" (VList l)) measures show figsize title ma w
  = plotter (dict_set wd "peaklist" (VArray l)) measures show figsize title ma w
  /\ forall arr fig w',
       plotter (dict_set wd "removed_beats" (VArray arr)) measures false figsize
         title ma w = (inr (Some fig), w') ->
       plotter (dict_set wd "removed_beats" (VList l)) measures show figsize
         title ma w = (inl TypeError, logged w [PltSubplots figsize]).
Proof.
  split.
  - unfold plotter, shade_rejected_segments.
    rewrite !dict_get_set_same.
    rewrite !(dict_get_set_other wd "peaklist") by reflexivity.
    unfold bindS, lift, ok. cbv beta iota. cbn [np_asarray]. reflexivity.
  - intros arr fig w' H.
    unfold plotter in *.
    rewrite !dict_get_set_same in *.
    rewrite !(dict_get_set_other wd "removed_beats") in * by reflexivity.
    destruct ma; invert_steps;
      unfold bindS, lift, emit, on_new_figure, draw, retS; cbv beta iota;
      match goal with
      | Hhr : dict_get wd "hr" = inr _, Hx : context [np_arange] |- _ =>
          rewrite Hhr in Hx; cbv beta iota in Hx
      end;
      repeat (match goal with
              | Hx : ?l = inr _ |- context [?l] => rewrite Hx
              end; cbv beta iota);
      unfold ok, py_div; cbv beta iota; reflexivity.
Qed.

Lemma plotter_converts_peaklist_only_witness :
  plotter (dict_set signal_record "removed_beats" (VList [VInt 2])) signal_measures
    false None default_title false empty_world
  = (inl TypeError, logged empty_world [PltSubplots None]).
Proof.
  eapply (proj2 (plotter_converts_peaklist_only signal_record signal_measures
                   false None default_title false empty_world [VInt 2])
            [VInt 2]).
  vm_compute. reflexivity.
Defined.

(** ** The rows of [report] *)

Lemma pad_left (width : nat) (sign body : string) :
  pad " " AlignLeft (Some width) sign body = column width (sign ++ body).
Proof.
  unfold pad, column.
  assert (H : forall a b, String.length (a ++ b) = (String.length a + String.length b)%nat).
  { induction a; simpl; intros; [reflexivity|]. rewrite IHa. reflexivity. }
  rewrite H.
  assert (A : forall a b c : string, (a ++ b) ++ c = a ++ b ++ c).
  { induction a; simpl; intros; [reflexivity|]. rewrite IHa. reflexivity. }
  rewrite A. reflexivity.
Qed.

Ltac eval_row :=
  unfold str_format;
  match goal with |- context [parse_template ?s None] =>
    let t := fresh "t" in set (t := parse_template s None); vm_compute in t; subst t
  end;
  cbv beta iota; cbn [fill_template];
  repeat match goal with |- context [parse_field ?s] =>
    let t := fresh "t" in set (t := parse_field s); vm_compute in t; subst t
  end;
  cbv beta iota.

Lemma format_general (spec : format_spec) (v : pyval) (q : Q) :
  as_number v = ok q -> fs_type spec = Some "g"%char ->
  format_value spec v
  = ok (pad (fill_of spec) (align_of spec AlignRight) (fs_width spec)
          (sign_text (fs_sign spec) q)
          (general_digits (fs_alt spec)
             (match fs_precision spec with Some p => p | None => 6%nat end)
             (Qabs q))).
Proof.
  intros Hv Hty.
  destruct v; try discriminate; inversion Hv; subst;
    unfold format_value, format_float; rewrite Hty; reflexivity.
Qed.

Lemma append_assoc (a b c : string) : (a ++ b) ++ c = a ++ b ++ c.
Proof. induction a; simpl; [reflexivity|]. rewrite IHa. reflexivity. Qed.

Lemma table_fmt_row (label : string) (v : pyval) (q : Q) :
  as_number v = ok q ->
  str_format (table_fmt false) [VStr label; v] = ok (table_row label q).
Proof.
  intros Hv. unfold table_fmt. eval_row.
  rewrite (format_general _ v q) by (assumption || reflexivity).
  cbn -[general_digits pad Qabs sign_text].
  rewrite !pad_left. reflexivity.
Qed.

Lemma append_nil_r (a : string) : a ++ "" = a.
Proof. induction a; simpl; [reflexivity|]. rewrite IHa. reflexivity. Qed.

Lemma pad_none (fill : ascii) (al : align_opt) (sign body : string) :
  pad fill al None sign body = sign ++ body.
Proof.
  unfold pad. simpl. destruct al; simpl; rewrite ?append_nil_r; reflexivity.
Qed.

Lemma table_fmt_csv_row (label : string) (v : pyval) (q : Q) :
  as_number v = ok q ->
  str_format (table_fmt true) [VStr label; v] = ok (csv_row 9 label q).
Proof.
  intros Hv. unfold table_fmt. eval_row.
  rewrite (format_general _ v q) by (assumption || reflexivity).
  cbn -[general_digits pad Qabs sign_text].
  rewrite !pad_none. reflexivity.
Qed.

Lemma info_fmt_row (label : string) (v : pyval) (q : Q) :
  as_number v = ok q ->
  str_format (info_fmt false) [VStr label; v] = ok (table_row label q).
Proof. apply table_fmt_row. Qed.

Lemma info_fmt_csv_row (label : string) (v : pyval) (q : Q) :
  as_number v = ok q ->
  str_format (info_fmt true) [VStr label; v] = ok (csv_row 3 label q).
Proof.
  intros Hv. unfold info_fmt. eval_row.
  rewrite (format_general _ v q) by (assumption || reflexivity).
  cbn -[general_digits pad Qabs sign_text].
  rewrite !pad_none. reflexivity.
Qed.

Lemma metric_row_eq (csvfile : bool) (label : string) (v : pyval) (q : Q) :
  as_number v = ok q ->
  str_format (table_fmt csvfile) [VStr label; v] = ok (metric_row csvfile label q).
Proof.
  destruct csvfile; [apply table_fmt_csv_row | apply table_fmt_row].
Qed.

Lemma summary_row_eq (csvfile : bool) (label : string) (v : pyval) (q : Q) :
  as_number v = ok q ->
  str_format (info_fmt csvfile) [VStr label; v] = ok (summary_row csvfile label q).
Proof.
  destruct csvfile; [apply info_fmt_csv_row | apply info_fmt_row].
Qed.

Lemma header_row_eq (csvfile : bool) :
  (l1 <- str_format (header_fmt csvfile) [VStr "Measure"; VStr "Value"] ;;
   l2 <- str_format (header_fmt csvfile) [VStr "-----------"; VStr "---------"] ;;
   ok ("" ++ l1 ++ l2)) = ok (header_rows csvfile).
Proof. destruct csvfile; vm_compute; reflexivity. Qed.

Lemma table_lines_eq (csvfile : bool) (measures : pydict) (qs : list (string * Q))
    (out_str : string) :
  numbers_of measures = ok qs ->
  table_lines (table_fmt csvfile) measures out_str
  = ok (out_str ++ metric_rows csvfile qs).
Proof.
  revert qs out_str. induction measures as [|[k v] rest IH]; intros qs out_str H.
  - inversion H; subst. simpl. rewrite append_nil_r. reflexivity.
  - simpl in H. destruct (as_number v) as [e|q] eqn:Hv; [discriminate|].
    destruct (numbers_of rest) as [e|qs'] eqn:Hr; [discriminate|].
    inversion H; subst. cbn [table_lines].
    rewrite (metric_row_eq csvfile _ v q Hv). unfold ok at 1. cbv beta iota.
    rewrite (IH qs' _ eq_refl). cbn [metric_rows]. rewrite append_assoc. reflexivity.
Qed.

Lemma Qeq_bool_inject_Z_0 (n : Z) : Qeq_bool (inject_Z n) 0 = (n =? 0).
Proof.
  unfold Qeq_bool, inject_Z. simpl. rewrite Z.mul_1_r.
  destruct n; reflexivity.
Qed.

(** The text of the report, when its numbers are numbers. *)
Lemma report_text_layout wd measures csvfile qs best b rb k rr n :
  numbers_of measures = ok qs ->
  dict_get wd "best" = ok best -> as_number best = ok b ->
  dict_get wd "removed_beats" = ok rb -> py_len rb = ok k ->
  dict_get wd "RR_list" = ok rr -> py_len rr = ok n ->
  report_text wd measures csvfile =
    if n =? 0 then raise ZeroDivisionError
    else ok (header_rows csvfile ++ metric_rows csvfile qs
               ++ (if csvfile then "" else nl)
               ++ summary_row csvfile "Best MA (%)" b
               ++ summary_row csvfile "Excl. peaks" (inject_Z k)
               ++ summary_row csvfile "Excl. %"
                    (Qred (inject_Z (100 * k) / inject_Z n))).
Proof.
  intros Hqs Hbest Hb Hrb Hk Hrr Hn.
  unfold report_text.
  pose proof (header_row_eq csvfile) as Hh.
  destruct (str_format (header_fmt csvfile) [VStr "Measure"; VStr "Value"])
    as [e|l1]; [discriminate|].
  destruct (str_format (header_fmt csvfile) [VStr "-----------"; VStr "---------"])
    as [e|l2]; [discriminate|].
  inversion Hh as [Hh']. 
  rewrite (table_lines_eq csvfile measures qs _ Hqs).
  rewrite Hbest. unfold ok in *.
  rewrite (summary_row_eq csvfile _ best b Hb).
  rewrite Hrb, Hk. unfold pc_rmbeats. rewrite Hrr, Hn.
  unfold num_truediv. cbn [as_number]. unfold ok, raise. cbv beta iota.
  rewrite Qeq_bool_inject_Z_0.
  destruct (n =? 0); [reflexivity|].
  rewrite (summary_row_eq csvfile _ (VInt k) (inject_Z k) eq_refl).
  unfold ok. cbv beta iota.
  rewrite (summary_row_eq csvfile _ (VFloat _) _ eq_refl).
  unfold ok. f_equal.
  destruct csvfile; cbn [String.append]; rewrite !append_assoc; reflexivity.
Qed.

(** ** The first character of a number *)

Lemma digit_char_is_digit (d : Z) : 0 <= d < 10 -> is_digit (digit_char d) = true.
Proof.
  intros H. unfold is_digit, digit_char.
  rewrite nat_ascii_embedding by lia.
  apply andb_true_intro. split; apply Nat.leb_le; lia.
Qed.





(** ** Significant digits *)







Lemma Qle_bool_spec (a b : Q) : reflect (a <= b)%Q (Qle_bool a b).
Proof.
  destruct (Qle_bool a b) eqn:E; constructor.
  - apply Qle_bool_iff. exact E.
  - intros H. apply Qle_bool_iff in H. congruence.
Qed.




Lemma digits_of_length (n : nat) (m : Z) : String.length (digits_of n m) = n.
Proof.
  revert m. induction n as [|n IH]; intros m; simpl; [reflexivity|].
  assert (H : forall a b, String.length (a ++ b) = (String.length a + String.length b)%nat).
  { induction a; simpl; intros; [reflexivity|]. rewrite IHa. reflexivity. }
  rewrite H, IH. simpl. lia.
Qed.

(** ** Where a number has a [+] *)

Lemma count_char_app (c : ascii) (a b : string) :
  count_char c (a ++ b) = (count_char c a + count_char c b)%nat.
Proof.
  induction a as [|c' a IH]; cbn [String.append count_char];
    [reflexivity | rewrite IH; lia].
Qed.











(** C5.  With [k] removed beats and [n] intervals in [RR_list], in a
    record whose other numbers are numbers: when [n > 0] the value of
    the row [Excl. %] is [100*k/n], that row ends the text, and the text
    is printed or written; when [n = 0] the call raises
    [ZeroDivisionError] and prints or writes nothing. *)
Theorem report_rejection_percentage
    wd measures outfile csvfile w qs best b rb k rr n :
  numbers_of measures = ok qs ->
  dict_get wd "best" = ok best -> as_number best = ok b ->
  dict_get wd "removed_beats" = ok rb -> py_len rb = ok k ->
  dict_get wd "RR_list" = ok rr -> py_len rr = ok n ->
  (0 < n ->
     exists pc before,
       pc_rmbeats wd k = ok (VFloat pc)
       /\ (pc == inject_Z 100 * inject_Z k / inject_Z n)%Q
       /\ report_text wd measures csvfile
          = ok (before ++ summary_row csvfile "Excl. %" pc)
       /\ report wd measures outfile csvfile w
          = (inr tt,
             logged w [match outfile with
                       | None => Print (before ++ summary_row csvfile "Excl. %" pc)
                       | Some f =>
                           FileWrite f (before ++ summary_row csvfile "Excl. %" pc)
                       end]))
  /\ (n = 0 ->
        pc_rmbeats wd k = raise ZeroDivisionError
        /\ report wd measures outfile csvfile w = (inl ZeroDivisionError, w)).
Proof.
  intros Hqs Hbest Hb Hrb Hk Hrr Hn.
  pose proof (report_text_layout wd measures csvfile qs best b rb k rr n
                Hqs Hbest Hb Hrb Hk Hrr Hn) as Htext.
  assert (Hpc : pc_rmbeats wd k
                = if n =? 0 then raise ZeroDivisionError
                  else ok (VFloat (Qred (inject_Z (100 * k) / inject_Z n)))).
  { unfold pc_rmbeats. rewrite Hrr. unfold ok in *. rewrite Hn.
    unfold num_truediv. cbn [as_number]. unfold ok. cbv beta iota.
    rewrite Qeq_bool_inject_Z_0. destruct (n =? 0); reflexivity. }
  split.
  - intros Hpos. destruct (Z.eqb_spec n 0) as [->|Hne]; [lia|].
    eexists. eexists. split; [exact Hpc|]. split.
    { rewrite Qred_correct. rewrite inject_Z_mult. reflexivity. }
    split.
    + rewrite Htext. rewrite <- !append_assoc. reflexivity.
    + unfold report, bindS, lift. rewrite Htext. rewrite <- !append_assoc.
      destruct outfile; reflexivity.
  - intros ->. simpl in *. split; [exact Hpc|].
    unfold report, bindS, lift. rewrite Htext. reflexivity.
Qed.

Lemma report_rejection_percentage_witness :
  exists pc,
    pc_rmbeats scenario_record 2 = ok (VFloat pc) /\ (pc == 4)%Q.
Proof.
  destruct (proj1 (report_rejection_percentage scenario_record scenario_measures
                     None false empty_world _ _ _ _ _ _ _
                     eq_refl eq_refl eq_refl eq_refl eq_refl eq_refl eq_refl))
    as [pc [before [Hpc [Hval _]]]].
  - reflexivity.
  - exists pc. split; [exact Hpc|]. rewrite Hval. reflexivity.
Defined.

(** ** [rotate_vec] *)

Local Open Scope R_scope.

(** C7.  [rotate_vec x y angle] is [(x cos t - y sin t, x sin t + y cos t)]
    for [t] the angle in radians, which is the rotation of [(x, y)] about
    the origin by [angle] degrees counter-clockwise: the point at
    distance [r] and direction [phi] goes to distance [r] and direction
    [phi + t].  The function is total and touches no state. *)
Theorem rotate_vec_is_rotation (x y angle : R) :
  let theta := angle * PI / 180 in
  rotate_vec x y angle
    = (x * cos theta - y * sin theta, x * sin theta + y * cos theta)
  /\ (forall r phi,
        rotate_vec (r * cos phi) (r * sin phi) angle
        = (r * cos (phi + theta), r * sin (phi + theta)))
  /\ fst (rotate_vec x y angle) ^ 2 + snd (rotate_vec x y angle) ^ 2
     = x ^ 2 + y ^ 2
  /\ rotate_vec x y 0 = (x, y)
  /\ rotate_vec 0 1 (-90) = (1, 0).
Proof.
  intros theta. unfold rotate_vec, np_radians. fold theta. cbv zeta.
  split; [reflexivity|]. split; [|split; [|split]].
  - intros r phi. rewrite cos_plus, sin_plus. f_equal; ring.
  - simpl fst. simpl snd.
    pose proof (sin2_cos2 theta) as H. unfold Rsqr in H.
    replace ((x * cos theta - y * sin theta) ^ 2 + (x * sin theta + y * cos theta) ^ 2)
      with ((x ^ 2 + y ^ 2) * (sin theta * sin theta + cos theta * cos theta)) by ring.
    rewrite H. ring.
  - replace (0 * PI / 180) with 0 by field.
    rewrite cos_0, sin_0. f_equal; ring.
  - replace (-90 * PI / 180) with (- (PI / 2)) by field.
    rewrite cos_neg, sin_neg, cos_PI2, sin_PI2. f_equal; ring.
Qed.

(** ** [plot_poincare] *)




(** * Further properties *)

Local Close Scope R_scope.
Local Open Scope Z_scope.

(** ** [plotter]: what fails before the figure, and what after *)

Lemma time_axis_ok (fs hr : pyval) (q : Q) (n : Z) :
  as_number fs = ok q -> ~ (q == 0)%Q -> py_len hr = ok n ->
  exists plotx,
    (n' <- py_len hr ;;
     stop <- py_div (VInt n') fs ;;
     step <- py_div (VInt 1) fs ;;
     np_arange (VInt 0) stop step) = ok plotx.
Proof.
  intros Hfs Hq Hn. rewrite Hn. unfold ok. cbv beta iota.
  assert (Hb : Qeq_bool q 0 = false).
  { destruct (Qeq_bool q 0) eqn:E; [|reflexivity].
    apply Qeq_bool_iff in E. contradiction. }
  unfold py_div, num_truediv. cbn [as_number]. unfold ok in *. rewrite Hfs.
  cbv beta iota. rewrite Hb. cbv beta iota.
  unfold np_arange. cbn [as_number]. unfold ok. cbv beta iota.
  assert (Hs : Qeq_bool (Qred (inject_Z 1 / q)) 0 = false).
  { destruct (Qeq_bool (Qred (inject_Z 1 / q)) 0) eqn:E; [|reflexivity].
    apply Qeq_bool_iff in E. rewrite Qred_correct in E.
    exfalso. apply Hq.
    assert (H1 : (q * (inject_Z 1 / q) == 1)%Q) by (field; exact Hq).
    rewrite E in H1. rewrite Qmult_0_r in H1. discriminate H1. }
  rewrite Hs. eexists. reflexivity.
Qed.

(** X1.  If the record lacks one of the six fields that the signal plot
    needs, [plotter] raises before it has opened a figure, and the world
    is as it was.  The exception is the [KeyError] of the first missing
    field, in the order in which the fields are read, whenever the time
    axis can be computed (the sampling rate is a number other than zero
    and [hr] has a length) or the field is one of the first two. *)
Theorem plotter_reads_fields_before_figure
    wd measures show figsize title ma w k :
  first_missing wd required_fields = Some k ->
  (exists e, plotter wd measures show figsize title ma w = (inl e, w))
  /\ ((k = "sample_rate" \/ k = "hr" \/
       exists fs q hr n,
         dict_get wd "sample_rate" = ok fs /\ as_number fs = ok q
         /\ ~ (q == 0)%Q /\ dict_get wd "hr" = ok hr /\ py_len hr = ok n) ->
      plotter wd measures show figsize title ma w = (inl (KeyError k), w)).
Proof.
  intros Hk. unfold plotter, bindS, lift. cbn [first_missing required_fields] in Hk.
  destruct (dict_get wd "sample_rate") as [e|fs] eqn:E1.
  { apply dict_get_error in E1. subst e. inversion Hk; subst k.
    split; [eexists; reflexivity|]. intros _. reflexivity. }
  destruct (dict_get wd "hr") as [e|hr] eqn:E2.
  { apply dict_get_error in E2. subst e. inversion Hk; subst k.
    split; [eexists; reflexivity|]. intros _. reflexivity. }
  cbv beta iota.
  match goal with
  | |- context [match ?X with inl _ => _ | inr _ => _ end] =>
      lazymatch X with
      | context [np_arange] => destruct X as [e|plotx] eqn:E3
      end
  end.
  { split; [eexists; reflexivity|].
    intros [->|[->|(fs' & q & hr' & n & H1 & H2 & H3 & H4 & H5)]].
    - destruct (dict_get wd "peaklist"); [|destruct (dict_get wd "ybeat");
        [|destruct (dict_get wd "removed_beats");
          [|destruct (dict_get wd "removed_beats_y")]]]; discriminate.
    - destruct (dict_get wd "peaklist"); [|destruct (dict_get wd "ybeat");
        [|destruct (dict_get wd "removed_beats");
          [|destruct (dict_get wd "removed_beats_y")]]]; discriminate.
    - inversion H1; subst fs'. inversion H4; subst hr'.
      destruct (time_axis_ok fs hr q n H2 H3 H5) as [px Hpx].
      pose proof (eq_trans (eq_sym E3) Hpx) as Habs. discriminate Habs. }
  destruct (dict_get wd "peaklist") as [e|v3] eqn:E4.
  { apply dict_get_error in E4. subst e. inversion Hk; subst k.
    split; [eexists; reflexivity|]. intros _. reflexivity. }
  destruct (dict_get wd "ybeat") as [e|v4] eqn:E5.
  { apply dict_get_error in E5. subst e. inversion Hk; subst k.
    split; [eexists; reflexivity|]. intros _. reflexivity. }
  destruct (dict_get wd "removed_beats") as [e|v5] eqn:E6.
  { apply dict_get_error in E6. subst e. inversion Hk; subst k.
    split; [eexists; reflexivity|]. intros _. reflexivity. }
  destruct (dict_get wd "removed_beats_y") as [e|v6] eqn:E7.
  { apply dict_get_error in E7. subst e. inversion Hk; subst k.
    split; [eexists; reflexivity|]. intros _. reflexivity. }
  discriminate.
Qed.

Lemma plotter_reads_fields_before_figure_witness :
  plotter (dict_del signal_record "ybeat") signal_measures false None
    default_title false empty_world
  = (inl (KeyError "ybeat"), empty_world).
Proof.
  apply (proj2 (plotter_reads_fields_before_figure
                  (dict_del signal_record "ybeat") signal_measures false None
                  default_title false empty_world "ybeat" eq_refl)).
  right; right. exists (VFloat 100), 100%Q, (VArray [VFloat 1; VFloat 2; VFloat 3]), 3.
  repeat split; try reflexivity. intros H. discriminate H.
Defined.

(** X2.  A sampling rate of zero makes [plotter] raise
    [ZeroDivisionError] on the time axis, before any figure is opened. *)
Theorem plotter_zero_sample_rate
    wd measures show figsize title ma w fs q hr n :
  dict_get wd "sample_rate" = ok fs -> as_number fs = ok q -> (q == 0)%Q ->
  dict_get wd "hr" = ok hr -> py_len hr = ok n ->
  plotter wd measures show figsize title ma w = (inl ZeroDivisionError, w).
Proof.
  intros Hfs Hq Hz Hhr Hn. unfold plotter, bindS, lift.
  rewrite Hfs. unfold ok in *. cbv beta iota. rewrite Hhr. cbv beta iota.
  rewrite Hn. cbv beta iota.
  unfold py_div, num_truediv. cbn [as_number]. rewrite Hq. unfold ok. cbv beta iota.
  assert (Hb : Qeq_bool q 0 = true) by (apply Qeq_bool_iff; exact Hz).
  rewrite Hb. reflexivity.
Qed.

Lemma plotter_zero_sample_rate_witness :
  plotter (dict_set signal_record "sample_rate" (VInt 0)) signal_measures false
    None default_title false empty_world
  = (inl ZeroDivisionError, empty_world).
Proof.
  apply (plotter_zero_sample_rate
           (dict_set signal_record "sample_rate" (VInt 0)) signal_measures false
           None default_title false empty_world (VInt 0) 0%Q
           (VArray [VFloat 1; VFloat 2; VFloat 3]) 3);
    reflexivity.
Defined.

(** X3.  The measure [bpm] is read only when the figure is open: for a
    record that plots with some measures, measures without the key
    [bpm] make [plotter] raise [KeyError] after [plt.subplots], and the
    figure is neither shown nor returned. *)
Theorem plotter_missing_bpm_after_figure
    wd measures measures' show figsize title ma w fig w' :
  plotter wd measures false figsize title ma w = (inr (Some fig), w') ->
  dict_get measures' "bpm" = raise (KeyError "bpm") ->
  w' = logged w [PltSubplots figsize]
  /\ plotter wd measures' show figsize title ma w
     = (inl (KeyError "bpm"), logged w [PltSubplots figsize]).
Proof.
  intros H Hbpm. unfold plotter in *.
  destruct ma; invert_steps; (split; [reflexivity|]);
    unfold bindS, lift, emit, on_new_figure, draw, retS; cbv beta iota;
    match goal with
    | Hhr : dict_get wd "hr" = inr _, Hx : context [np_arange] |- _ =>
        rewrite Hhr in Hx; cbv beta iota in Hx
    end;
    rewrite Hbpm;
    repeat (match goal with
            | Hx : ?l = inr _ |- context [?l] => rewrite Hx
            end; cbv beta iota);
    reflexivity.
Qed.

Lemma plotter_missing_bpm_after_figure_witness :
  plotter signal_record [] true None default_title false empty_world
  = (inl (KeyError "bpm"), logged empty_world [PltSubplots None]).
Proof.
  eapply (proj2 (plotter_missing_bpm_after_figure signal_record signal_measures []
                   true None default_title false empty_world _ _ _ eq_refl)).
  Unshelve. 3: (vm_compute; reflexivity).
Defined.

(** X4.  The moving average is one more line and nothing else.  For a
    record that plots without it: with [moving_average] and a field
    [rolling_mean], the figure is the same with one gray line, over the
    same time axis as the signal, put in fourth place; with
    [moving_average] and no field [rolling_mean], [plotter] raises
    [KeyError] after it has opened the figure. *)
Theorem plotter_moving_average wd measures show figsize title w fig w' :
  plotter wd measures false figsize title false w = (inr (Some fig), w') ->
  exists a plotx hr c rest,
    fig = a :: PlotLine plotx hr (Palette 0) (Some "heart rate signal") None
                 (Some (-10)) :: c :: rest
    /\ (forall rm, dict_get wd "rolling_mean" = ok rm ->
          plotter wd measures false figsize title true w
          = (inr (Some (a :: PlotLine plotx hr (Palette 0)
                               (Some "heart rate signal") None (Some (-10))
                          :: c
                          :: PlotLine plotx rm (Named "gray") None (Some (1 # 2)) None
                          :: rest)), w'))
    /\ (dict_get wd "rolling_mean" = raise (KeyError "rolling_mean") ->
          plotter wd measures show figsize title true w
          = (inl (KeyError "rolling_mean"), logged w [PltSubplots figsize])).
Proof.
  intros H. unfold plotter in *. invert_steps.
  do 5 eexists. split; [reflexivity|]. split.
  - intros rm Hrm.
    unfold bindS, lift, emit, on_new_figure, draw, retS; cbv beta iota.
    match goal with
    | Hhr : dict_get wd "hr" = inr _, Hx : context [np_arange] |- _ =>
        rewrite Hhr in Hx; cbv beta iota in Hx
    end.
    rewrite Hrm. unfold ok.
    repeat (match goal with
            | Hx : ?l = inr _ |- context [?l] => rewrite Hx
            end; cbv beta iota).
    rewrite shade_rejected_segments_eq. reflexivity.
  - intros Hrm.
    unfold bindS, lift, emit, on_new_figure, draw, retS; cbv beta iota.
    match goal with
    | Hhr : dict_get wd "hr" = inr _, Hx : context [np_arange] |- _ =>
        rewrite Hhr in Hx; cbv beta iota in Hx
    end.
    rewrite Hrm. unfold raise.
    repeat (match goal with
            | Hx : ?l = inr _ |- context [?l] => rewrite Hx
            end; cbv beta iota).
    reflexivity.
Qed.

Lemma plotter_moving_average_witness :
  plotter signal_record signal_measures true None default_title true empty_world
  = (inl (KeyError "rolling_mean"), logged empty_world [PltSubplots None]).
Proof.
  destruct (plotter_moving_average signal_record signal_measures true None
              default_title empty_world _ _ ltac:(vm_compute; reflexivity))
    as (a & plotx & hr & c & rest & _ & _ & H).
  apply H. reflexivity.
Defined.

(** ** [plotter]: the bands of a well-formed field *)

Lemma leading_bands_of_pairs (l : list pyval) :
  forallb is_pair_of_numbers l = true ->
  leading_bands l = flat_map band_of l
  /\ List.length (leading_bands l) = List.length l.
Proof.
  induction l as [|s rest IH]; intros H; [split; reflexivity|].
  cbn [forallb] in H. apply andb_prop in H. destruct H as [Hs Hrest].
  destruct (IH Hrest) as [IH1 IH2].
  assert (Hp : exists a b, py_getitem s 0 = inr a /\ py_getitem s 1 = inr b
                           /\ span_bound a = inr tt /\ span_bound b = inr tt).
  { unfold is_pair_of_numbers in Hs.
    destruct s as [| | | |l0|l0|l0]; try discriminate;
      destruct l0 as [|a [|b [|c l0]]]; try discriminate;
      exists a, b;
      destruct a; try discriminate; destruct b; try discriminate;
      repeat split; reflexivity. }
  destruct Hp as (a & b & Ha & Hb & Hsa & Hsb).
  cbn [leading_bands flat_map]. unfold band_of, span_of. rewrite Ha, Hb, Hsa, Hsb.
  cbn [app List.length]. rewrite IH1 in *. split; [reflexivity|].
  rewrite IH2. reflexivity.
Qed.

(** X5.  A field [rejected_segments] that is a sequence of pairs of
    numbers gets one band for each pair, in their order and none left
    out: the [try] block adds them to the figure and nothing else. *)
Theorem well_formed_segments_all_shaded wd v (fig : figure) :
  dict_get wd "rejected_segments" = ok v ->
  well_formed_segments v = true ->
  exists l,
    py_items v = ok l
    /\ shade_rejected_segments wd fig = (inr tt, (fig ++ flat_map band_of l)%list)
    /\ List.length (flat_map band_of l) = List.length l
    /\ forall s, In s l ->
         exists a b, py_getitem s 0 = ok a /\ py_getitem s 1 = ok b
                     /\ band_of s = [AxVSpan a b "red" (1 # 2)].
Proof.
  intros Hv Hwf.
  assert (Hl : exists l, py_items v = ok l /\ forallb is_pair_of_numbers l = true).
  { destruct v; try discriminate; eexists; split; try reflexivity; exact Hwf. }
  destruct Hl as (l & Hitems & Hall). exists l.
  destruct (leading_bands_of_pairs l Hall) as [Hb Hlen].
  split; [exact Hitems|]. split; [|split].
  - rewrite shade_rejected_segments_eq, Hv. unfold bands_of, ok in *.
    rewrite Hitems, Hb. reflexivity.
  - rewrite <- Hb. exact Hlen.
  - intros s Hs. rewrite forallb_forall in Hall. specialize (Hall s Hs).
    unfold is_pair_of_numbers in Hall.
    destruct s as [| | | |l0|l0|l0]; try discriminate;
      destruct l0 as [|a [|b [|c l0]]]; try discriminate;
      exists a, b; repeat split; reflexivity.
Qed.

Lemma well_formed_segments_all_shaded_witness :
  shade_rejected_segments
    (dict_set signal_record "rejected_segments"
       (VList [VList [VFloat 1; VFloat 2]; VTuple [VInt 3; VInt 4]])) []
  = (inr tt, [AxVSpan (VFloat 1) (VFloat 2) "red" (1 # 2);
              AxVSpan (VInt 3) (VInt 4) "red" (1 # 2)]).
Proof.
  destruct (well_formed_segments_all_shaded
              (dict_set signal_record "rejected_segments"
                 (VList [VList [VFloat 1; VFloat 2]; VTuple [VInt 3; VInt 4]]))
              _ [] eq_refl eq_refl) as (l & Hl & Hs & _).
  inversion Hl; subst l. exact Hs.
Defined.

(** ** [plotter]: what it leaves in the world *)

Lemma plotter_returning wd measures figsize title ma w :
  (exists e, plotter wd measures false figsize title ma w = (inl e, w))
  \/ (exists e, plotter wd measures false figsize title ma w
                = (inl e, logged w [PltSubplots figsize]))
  \/ (exists fig, plotter wd measures false figsize title ma w
                  = (inr (Some fig), logged w [PltSubplots figsize])).
Proof.
  unfold plotter, bindS, lift, emit, retS. cbv beta iota.
  repeat match goal with
  | |- context [match ?r with inl _ => _ | inr _ => _ end] =>
      lazymatch r with
      | context [on_new_figure] => fail
      | _ => destruct r; [left; eexists; reflexivity|]
      end
  end.
  match goal with |- context [on_new_figure ?m ?w1] =>
    assert (Hw : snd (on_new_figure m w1) = w1)
      by (unfold on_new_figure; destruct (m []) as [[?|?] ?]; reflexivity);
    destruct (on_new_figure m w1) as [[e|fig] w2] end; simpl in Hw; subst w2.
  - right; left. eexists. reflexivity.
  - right; right. eexists. reflexivity.
Qed.

(** X6.  [plotter] makes no directory and saves no file; of pyplot it
    calls [subplots] once at most, and it shows the figure once, at the
    end, only if asked to.  Asked to show, it returns [None] and shows
    the very figure that it returns when not asked to; it never does
    both, and a failure after [subplots] leaves the figure neither shown
    nor returned. *)
Theorem plotter_footprint wd measures show figsize title ma w :
  let run := plotter wd measures show figsize title ma w in
  dirs (snd run) = dirs w
  /\ saved_files (log (snd run)) = saved_files (log w)
  /\ match fst run with
     | inl _ =>
         log (snd run) = log w
         \/ log (snd run) = (log w ++ [PltSubplots figsize])%list
     | inr (Some fig) =>
         show = false /\ log (snd run) = (log w ++ [PltSubplots figsize])%list
     | inr None =>
         show = true
         /\ exists fig,
              log (snd run) = (log w ++ [PltSubplots figsize; FigShow fig])%list
              /\ plotter wd measures false figsize title ma w
                 = (inr (Some fig), logged w [PltSubplots figsize])
     end.
Proof.
  intros run. subst run.
  destruct show.
  - rewrite plotter_show.
    destruct (plotter_returning wd measures figsize title ma w)
      as [[e H]|[[e H]|[fig H]]]; rewrite H; simpl;
      rewrite ?saved_files_app; simpl; rewrite ?app_nil_r; repeat split; auto.
    exists fig. rewrite <- app_assoc. simpl. auto.
  - destruct (plotter_returning wd measures figsize title ma w)
      as [[e H]|[[e H]|[fig H]]]; rewrite H; simpl;
      rewrite ?saved_files_app; simpl; rewrite ?app_nil_r; repeat split; auto.
Qed.

(** ** [segment_plotter]: when it returns *)

Lemma output_path_ok (path : string) (w : world) :
  exists path', output_path path w = (inr path', snd (output_path path w)).
Proof.
  rewrite output_path_eq.
  destruct (missing_separator path); [destruct (isdir w _)|];
    eexists; reflexivity.
Qed.

(** X7.  [segment_plotter] returns without an exception exactly when its
    arguments pass the two checks and the range of segments is empty
    ([end], or the number of segments, is at most [start]); it has then
    done nothing but complete the path, which may have made the
    directory.  A call that has a segment to plot never returns
    normally. *)
Theorem segment_plotter_returns_only_when_idle
    wd measures title figsize path start end_ step w :
  let run := segment_plotter wd measures title figsize path start end_ step w in
  (fst run = inr tt
   <-> exists hr S,
         dict_get wd "hr" = ok hr /\ py_len hr = ok S /\ 0 < step < S
         /\ (forall e, end_ = Some e -> e <= S) /\ stop_of end_ S <= start)
  /\ (fst run = inr tt -> snd run = snd (output_path path w)).
Proof.
  intros run.
  assert (Hback : forall hr S,
            dict_get wd "hr" = ok hr -> py_len hr = ok S -> 0 < step < S ->
            (forall e, end_ = Some e -> e <= S) -> stop_of end_ S <= start ->
            run = (inr tt, snd (output_path path w))).
  { intros hr S Hhr Hlen Hstep Hend Hidle. subst run.
    rewrite (segment_plotter_checked _ _ _ _ _ _ _ _ _ _ _ Hhr Hlen Hstep Hend).
    rewrite py_range_empty by exact Hidle.
    unfold bindS. destruct (output_path_ok path w) as [p Hp]. rewrite Hp.
    reflexivity. }
  assert (Hforth : fst run = inr tt ->
            exists hr S,
              dict_get wd "hr" = ok hr /\ py_len hr = ok S /\ 0 < step < S
              /\ (forall e, end_ = Some e -> e <= S) /\ stop_of end_ S <= start).
  { subst run. unfold segment_plotter. unfold bindS at 1. unfold lift at 1.
    destruct (Z.ltb_spec 0 step) as [H0|H0]; [|simpl; discriminate].
    destruct (dict_get wd "hr") as [e|hr] eqn:Hhr; [simpl; discriminate|].
    destruct (py_len hr) as [e|S] eqn:Hlen; [simpl; discriminate|].
    cbv beta iota. unfold ok at 1. cbv beta iota.
    destruct (Z.ltb_spec step S) as [H1|H1]; [|simpl; discriminate].
    cbn [py_assert]. unfold ok at 1. cbv beta iota.
    unfold bindS at 1. unfold lift at 1.
    assert (Hend : (forall e, end_ = Some e -> e <= S)
                   \/ exists e, end_ = Some e /\ S < e).
    { destruct end_ as [e|]; [|left; intros e He; discriminate].
      destruct (Z.le_gt_cases e S); [left; intros e' He'; inversion He'; lia|].
      right. exists e. split; [reflexivity|lia]. }
    destruct Hend as [Hend|(e & -> & He)].
    - intros Hrun. exists hr, S. repeat split; try assumption; try lia.
      destruct (Z.le_gt_cases (stop_of end_ S) start) as [Hidle|Hbusy];
        [exact Hidle|exfalso].
      assert (Heq : segment_plotter wd measures title figsize path start end_ step w
                    = (path' <~ output_path path ;;
                       segment_loop wd measures figsize path'
                         (py_range start (stop_of end_ S) step) 0) w)
        by (apply (segment_plotter_checked _ _ _ _ _ _ _ _ _ hr S); auto).
      unfold segment_plotter in Heq.
      unfold bindS at 1 in Heq. unfold lift at 1 in Heq.
      destruct (Z.ltb_spec 0 step) as [_|?]; [|lia].
      rewrite Hhr in Heq. cbv beta iota in Heq. rewrite Hlen in Heq.
      unfold ok at 1 in Heq. cbv beta iota in Heq.
      destruct (Z.ltb_spec step S) as [_|?]; [|lia].
      cbn [py_assert] in Heq. unfold ok at 1 in Heq. cbv beta iota in Heq.
      unfold bindS at 1 in Heq. unfold lift at 1 in Heq.
      rewrite Heq in Hrun.
      destruct (py_range_first start (stop_of end_ S) step) as [rest Hr]; [lia|lia|].
      rewrite Hr in Hrun. unfold bindS in Hrun.
      destruct (output_path_ok path w) as [p Hp]. rewrite Hp in Hrun.
      pose proof (segment_loop_outcome wd measures figsize p (start :: rest) 0
                    (snd (output_path path w))) as Hout.
      cbv beta iota in Hout. destruct Hout as [e [_ [Hx|Hx]]];
        rewrite Hx in Hrun; discriminate.
    - cbv beta iota. destruct (Z.leb_spec e S); [lia|]. simpl. discriminate. }
  split; [split|].
  - exact Hforth.
  - intros (hr & S & Hhr & Hlen & Hstep & Hend & Hidle).
    rewrite (Hback hr S Hhr Hlen Hstep Hend Hidle). reflexivity.
  - intros Hrun. destruct (Hforth Hrun) as (hr & S & Hhr & Hlen & Hstep & Hend & Hidle).
    rewrite (Hback hr S Hhr Hlen Hstep Hend Hidle). reflexivity.
Qed.

Lemma segment_plotter_returns_only_when_idle_witness :
  segment_plotter (segment_record 5) (segment_measures 5) default_title None
    "out" 5 None 1 empty_world
  = (inr tt, {| dirs := ["out/"]; log := [MakeDirs "out/"] |}).
Proof.
  pose proof (segment_plotter_returns_only_when_idle (segment_record 5)
                (segment_measures 5) default_title None "out" 5 None 1 empty_world)
    as [[_ Hback] Hworld].
  cbv zeta in Hback, Hworld.
  assert (Hrun : fst (segment_plotter (segment_record 5) (segment_measures 5)
                        default_title None "out" 5 None 1 empty_world) = inr tt).
  { apply Hback. eexists. exists 5.
    split; [reflexivity|]. split; [reflexivity|]. split; [lia|].
    split; [intros e He; discriminate|simpl; lia]. }
  specialize (Hworld Hrun).
  destruct (segment_plotter (segment_record 5) (segment_measures 5) default_title
              None "out" 5 None 1 empty_world) as [r w'].
  simpl in Hrun, Hworld. subst r w'. reflexivity.
Defined.

(** X8.  The step is checked before the record is read: a step of zero
    or less raises [AssertionError] whatever the record holds, even none
    of the fields.  With a positive step, a record without the key [hr]
    raises [KeyError], and one whose [hr] has no length [TypeError].  In
    each case nothing has been done to the world. *)
Theorem segment_plotter_checks_step_first
    wd measures title figsize path start end_ step w :
  let run := segment_plotter wd measures title figsize path start end_ step w in
  (step <= 0 -> run = (inl (AssertionError step_message), w))
  /\ (0 < step -> dict_get wd "hr" = raise (KeyError "hr") ->
      run = (inl (KeyError "hr"), w))
  /\ (0 < step -> forall hr, dict_get wd "hr" = ok hr ->
      py_len hr = raise TypeError -> run = (inl TypeError, w)).
Proof.
  intros run. subst run. unfold segment_plotter, bindS, lift.
  split; [|split].
  - intros H. destruct (Z.ltb_spec 0 step); [lia|]. reflexivity.
  - intros H Hhr. destruct (Z.ltb_spec 0 step); [|lia]. rewrite Hhr. reflexivity.
  - intros H hr Hhr Hlen. destruct (Z.ltb_spec 0 step); [|lia].
    rewrite Hhr. unfold ok. cbv beta iota. rewrite Hlen. reflexivity.
Qed.

Lemma segment_plotter_checks_step_first_witness :
  segment_plotter [] [] default_title None "out" 0 None 0 empty_world
  = (inl (AssertionError step_message), empty_world)
  /\ segment_plotter [] [] default_title None "out" 0 None 1 empty_world
     = (inl (KeyError "hr"), empty_world).
Proof.
  split.
  - apply (proj1 (segment_plotter_checks_step_first [] [] default_title None "out"
                    0 None 0 empty_world)). lia.
  - apply (proj1 (proj2 (segment_plotter_checks_step_first [] [] default_title None
                           "out" 0 None 1 empty_world))); [lia|reflexivity].
Defined.

(** ** [report]: when it fails, and with what *)

Lemma row_of_non_number (csvfile : bool) (label : string) (v : pyval) :
  as_number v = raise TypeError ->
  str_format (table_fmt csvfile) [VStr label; v] = raise (format_error v)
  /\ str_format (info_fmt csvfile) [VStr label; v] = raise (format_error v).
Proof.
  intros Hv. destruct csvfile; split; unfold table_fmt, info_fmt; eval_row;
    destruct v; try discriminate; reflexivity.
Qed.

Lemma not_number_cases (v : pyval) :
  (exists q, as_number v = ok q) \/ as_number v = raise TypeError.
Proof. destruct v; simpl; eauto. Qed.

Lemma table_lines_first_bad (csvfile : bool) (pre post : pydict) (k : string)
    (v : pyval) (qs : list (string * Q)) (out_str : string) :
  numbers_of pre = ok qs -> as_number v = raise TypeError ->
  table_lines (table_fmt csvfile) (pre ++ (k, v) :: post)%list out_str
  = raise (format_error v).
Proof.
  revert qs out_str. induction pre as [|[k0 v0] pre IH]; intros qs out_str Hpre Hv.
  - cbn [app table_lines].
    rewrite (proj1 (row_of_non_number csvfile (label_formatter k) v Hv)). reflexivity.
  - simpl in Hpre. destruct (as_number v0) as [e|q] eqn:Hv0; [discriminate|].
    destruct (numbers_of pre) as [e|qs'] eqn:Hr; [discriminate|].
    cbn [app table_lines]. rewrite (metric_row_eq csvfile _ v0 q Hv0).
    unfold ok at 1. cbv beta iota. apply (IH qs'); [reflexivity|exact Hv].
Qed.

Lemma numbers_or_first_bad (measures : pydict) :
  (exists qs, numbers_of measures = ok qs)
  \/ exists pre k v post qs,
       measures = (pre ++ (k, v) :: post)%list
       /\ numbers_of pre = ok qs /\ as_number v = raise TypeError.
Proof.
  induction measures as [|[k v] rest IH].
  - left. exists []. reflexivity.
  - destruct (not_number_cases v) as [[q Hq]|Hbad].
    + destruct IH as [[qs Hqs]|(pre & k' & v' & post & qs & -> & Hpre & Hv)].
      * left. simpl. rewrite Hq, Hqs. eexists. reflexivity.
      * right. exists ((k, v) :: pre), k', v', post, ((k, q) :: qs).
        split; [reflexivity|]. split; [|exact Hv]. simpl. rewrite Hq, Hpre. reflexivity.
    + right. exists [], k, v, rest, []. split; [reflexivity|].
      split; [reflexivity|exact Hbad].
Qed.

Lemma report_text_first_bad wd (csvfile : bool) (pre post : pydict) (k : string)
    (v : pyval) (qs : list (string * Q)) :
  numbers_of pre = ok qs -> as_number v = raise TypeError ->
  report_text wd (pre ++ (k, v) :: post)%list csvfile = raise (format_error v).
Proof.
  intros Hpre Hv. unfold report_text.
  pose proof (header_row_eq csvfile) as Hh.
  destruct (str_format (header_fmt csvfile) [VStr "Measure"; VStr "Value"])
    as [e|l1]; [discriminate|].
  destruct (str_format (header_fmt csvfile) [VStr "-----------"; VStr "---------"])
    as [e|l2]; [discriminate|].
  rewrite (table_lines_first_bad csvfile pre post k v qs _ Hpre Hv). reflexivity.
Qed.

(** X9.  A measure that is no number stops the report before the working
    data are read: with numbers before it, the first value that is a
    string raises [ValueError], and the first that is [None], a list, a
    tuple or an array raises [TypeError], whatever the working data
    hold; nothing is printed or written. *)
Theorem report_first_bad_measure
    wd (pre post : pydict) k v qs outfile csvfile w :
  numbers_of pre = ok qs -> as_number v = raise TypeError ->
  report wd (pre ++ (k, v) :: post)%list outfile csvfile w
  = (inl (format_error v), w).
Proof.
  intros Hpre Hv. unfold report, bindS, lift.
  rewrite (report_text_first_bad wd csvfile pre post k v qs Hpre Hv). reflexivity.
Qed.

Lemma report_first_bad_measure_witness :
  report [] [("bpm", VFloat 60); ("sdnn", VNone); ("ibi", VStr "x")] None true
    empty_world
  = (inl TypeError, empty_world).
Proof.
  apply (report_first_bad_measure [] [("bpm", VFloat 60)] [("ibi", VStr "x")]
           "sdnn" VNone [("bpm", 60%Q)] None true empty_world); reflexivity.
Defined.

Lemma report_text_needs wd measures csvfile text :
  report_text wd measures csvfile = ok text ->
  exists qs best b rb k rr n,
    numbers_of measures = ok qs
    /\ dict_get wd "best" = ok best /\ as_number best = ok b
    /\ dict_get wd "removed_beats" = ok rb /\ py_len rb = ok k
    /\ dict_get wd "RR_list" = ok rr /\ py_len rr = ok n /\ n <> 0.
Proof.
  intros H.
  destruct (numbers_or_first_bad measures)
    as [[qs Hqs]|(pre & k' & v' & post & qs & -> & Hpre & Hv)].
  2:{ rewrite (report_text_first_bad wd csvfile pre post k' v' qs Hpre Hv) in H.
      discriminate. }
  exists qs.
  destruct (dict_get wd "best") as [e|best] eqn:Hbest.
  { exfalso. revert H. unfold report_text.
    pose proof (header_row_eq csvfile) as Hh.
    destruct (str_format (header_fmt csvfile) [VStr "Measure"; VStr "Value"])
      as [e0|l1]; [discriminate|].
    destruct (str_format (header_fmt csvfile) [VStr "-----------"; VStr "---------"])
      as [e0|l2]; [discriminate|].
    rewrite (table_lines_eq csvfile measures qs _ Hqs). rewrite Hbest. discriminate. }
  destruct (not_number_cases best) as [[b Hb]|Hb].
  2:{ exfalso. revert H. unfold report_text.
      pose proof (header_row_eq csvfile) as Hh.
      destruct (str_format (header_fmt csvfile) [VStr "Measure"; VStr "Value"])
        as [e0|l1]; [discriminate|].
      destruct (str_format (header_fmt csvfile) [VStr "-----------"; VStr "---------"])
        as [e0|l2]; [discriminate|].
      rewrite (table_lines_eq csvfile measures qs _ Hqs). rewrite Hbest.
      unfold ok at 1. cbv beta iota.
      rewrite (proj2 (row_of_non_number csvfile "Best MA (%)" best Hb)).
      discriminate. }
  exists best, b.
  assert (Hrest : forall rb k rr n,
            dict_get wd "removed_beats" = ok rb -> py_len rb = ok k ->
            dict_get wd "RR_list" = ok rr -> py_len rr = ok n -> n <> 0).
  { intros rb k rr n Hrb Hk Hrr Hn Hz. subst n.
    rewrite (report_text_layout wd measures csvfile qs best b rb k rr 0
               Hqs Hbest Hb Hrb Hk Hrr Hn) in H. discriminate. }
  revert H. unfold report_text.
  pose proof (header_row_eq csvfile) as Hh.
  destruct (str_format (header_fmt csvfile) [VStr "Measure"; VStr "Value"])
    as [e0|l1]; [discriminate|].
  destruct (str_format (header_fmt csvfile) [VStr "-----------"; VStr "---------"])
    as [e0|l2]; [discriminate|].
  rewrite (table_lines_eq csvfile measures qs _ Hqs). rewrite Hbest.
  unfold ok at 1. cbv beta iota.
  rewrite (summary_row_eq csvfile _ best b Hb). unfold ok at 1. cbv beta iota.
  destruct (dict_get wd "removed_beats") as [e|rb] eqn:Hrb; [discriminate|].
  destruct (py_len rb) as [e|k] eqn:Hk; [discriminate|].
  unfold pc_rmbeats.
  destruct (dict_get wd "RR_list") as [e|rr] eqn:Hrr; [discriminate|].
  destruct (py_len rr) as [e|n] eqn:Hn; [discriminate|].
  intros _. exists rb, k, rr, n.
  repeat (split; [first [assumption | reflexivity]|]).
  apply (Hrest rb k rr n); first [assumption | reflexivity].
Qed.

(** X10.  [report] prints or writes exactly when every measure is a
    number, [best] is a number, [removed_beats] and [RR_list] have a
    length and [RR_list] is not empty.  It then makes one call, [print]
    without an output file and one write of the whole text to the file
    otherwise; in every other case it raises and makes no call at all,
    so that no part of a report is ever written. *)
Theorem report_writes_all_or_nothing wd measures outfile csvfile w :
  let run := report wd measures outfile csvfile w in
  (fst run = inr tt
   <-> exists qs best b rb k rr n,
         numbers_of measures = ok qs
         /\ dict_get wd "best" = ok best /\ as_number best = ok b
         /\ dict_get wd "removed_beats" = ok rb /\ py_len rb = ok k
         /\ dict_get wd "RR_list" = ok rr /\ py_len rr = ok n /\ n <> 0)
  /\ match fst run with
     | inl _ => snd run = w
     | inr _ =>
         exists text,
           report_text wd measures csvfile = ok text
           /\ snd run = logged w [match outfile with
                                  | None => Print text
                                  | Some f => FileWrite f text
                                  end]
     end.
Proof.
  intros run. subst run. unfold report, bindS, lift.
  destruct (report_text wd measures csvfile) as [e|text] eqn:Ht.
  - split; [split|reflexivity].
    + simpl. discriminate.
    + intros (qs & best & b & rb & k & rr & n & H1 & H2 & H3 & H4 & H5 & H6 & H7 & H8).
      rewrite (report_text_layout wd measures csvfile qs best b rb k rr n
                 H1 H2 H3 H4 H5 H6 H7) in Ht.
      destruct (Z.eqb_spec n 0); [contradiction|discriminate].
  - split; [split|].
    + intros _. apply (report_text_needs wd measures csvfile text Ht).
    + intros _. destruct outfile; reflexivity.
    + destruct outfile; simpl; eexists; split; reflexivity.
Qed.

Lemma report_writes_all_or_nothing_witness :
  fst (report scenario_record scenario_measures (Some "report.csv") true empty_world)
  = inr tt.
Proof.
  apply (proj2 (proj1 (report_writes_all_or_nothing scenario_record
                         scenario_measures (Some "report.csv") true empty_world))).
  do 6 eexists. exists 50.
  repeat (split; [reflexivity|]). discriminate.
Defined.

Lemma report_text_reads wd wd' measures csvfile :
  (forall k, In k report_fields -> dict_get wd k = dict_get wd' k) ->
  report_text wd measures csvfile = report_text wd' measures csvfile.
Proof.
  intros H. unfold report_text, pc_rmbeats.
  rewrite (H "best"), (H "removed_beats"), (H "RR_list");
    [reflexivity | simpl; tauto ..].
Qed.

(** X11.  Of the working data, [report] reads the fields [best],
    [removed_beats] and [RR_list] and nothing else: two records that
    agree on these three give the same outcome and the same output,
    whatever else they hold. *)
Theorem report_reads_three_fields wd wd' measures outfile csvfile w :
  (forall k, In k report_fields -> dict_get wd k = dict_get wd' k) ->
  report wd measures outfile csvfile w = report wd' measures outfile csvfile w.
Proof.
  intros H. unfold report, bindS, lift.
  rewrite (report_text_reads wd wd' measures csvfile H). reflexivity.
Qed.

Lemma report_reads_three_fields_witness :
  report (("hr", VArray [VFloat 1]) :: scenario_record) scenario_measures None false
    empty_world
  = report scenario_record scenario_measures None false empty_world.
Proof.
  apply (report_reads_three_fields (("hr", VArray [VFloat 1]) :: scenario_record)
           scenario_record scenario_measures None false empty_world).
  intros k [<-|[<-|[<-|[]]]]; reflexivity.
Defined.

(** X12.  With measures that are numbers, the first of the fields
    [best], [removed_beats], [RR_list] that the working data lack is the
    [KeyError] of [report], when the fields before it can be used (a
    [best] that is a number, [removed_beats] that have a length); again
    nothing is printed or written. *)
Theorem report_missing_field wd measures outfile csvfile w qs k :
  numbers_of measures = ok qs ->
  first_missing wd report_fields = Some k ->
  (forall v, dict_get wd "best" = ok v -> exists b, as_number v = ok b) ->
  (forall v, dict_get wd "removed_beats" = ok v -> exists n, py_len v = ok n) ->
  report wd measures outfile csvfile w = (inl (KeyError k), w).
Proof.
  intros Hqs Hk Hbest Hrb. unfold report, bindS, lift.
  assert (Ht : report_text wd measures csvfile = raise (KeyError k)).
  { unfold report_text.
    pose proof (header_row_eq csvfile) as Hh.
    destruct (str_format (header_fmt csvfile) [VStr "Measure"; VStr "Value"])
      as [e0|l1]; [discriminate|].
    destruct (str_format (header_fmt csvfile) [VStr "-----------"; VStr "---------"])
      as [e0|l2]; [discriminate|].
    rewrite (table_lines_eq csvfile measures qs _ Hqs). unfold ok at 1. cbv beta iota.
    revert Hk. unfold report_fields, first_missing.
    destruct (dict_get wd "best") as [e|best] eqn:E1.
    { intros Hk. inversion Hk; subst. apply dict_get_error in E1. subst. reflexivity. }
    destruct (Hbest best eq_refl) as [b Hb].
    rewrite (summary_row_eq csvfile _ best b Hb). unfold ok at 1. cbv beta iota.
    destruct (dict_get wd "removed_beats") as [e|rb] eqn:E2.
    { intros Hk. inversion Hk; subst. apply dict_get_error in E2. subst. reflexivity. }
    destruct (Hrb rb eq_refl) as [n Hn]. rewrite Hn. unfold ok at 1. cbv beta iota.
    unfold pc_rmbeats.
    destruct (dict_get wd "RR_list") as [e|rr] eqn:E3; [|discriminate].
    intros Hk. inversion Hk; subst. apply dict_get_error in E3. subst. reflexivity. }
  rewrite Ht. reflexivity.
Qed.

Lemma report_missing_field_witness :
  report [("best", VFloat 30); ("RR_list", VArray [VInt 800])] scenario_measures
    None true empty_world
  = (inl (KeyError "removed_beats"), empty_world).
Proof.
  apply (report_missing_field [("best", VFloat 30); ("RR_list", VArray [VInt 800])]
           scenario_measures None true empty_world
           [("bpm", 72345 # 1000); ("sdnn", 451 # 10)] "removed_beats").
  - reflexivity.
  - reflexivity.
  - intros v Hv. inversion Hv; subst. eexists. reflexivity.
  - intros v Hv. discriminate Hv.
Defined.

(** ** [report]: the column of the labels *)

(** On the texts of ASCII characters, where [upper] is [str.upper]. *)
Lemma upper_length (s : string) : String.length (upper s) = String.length s.
Proof. induction s as [|c s IH]; simpl; [reflexivity | rewrite IH; reflexivity]. Qed.

Lemma label_formatter_length (m : string) :
  (String.length (label_formatter m) <= Nat.max 14 (String.length m))%nat.
Proof.
  unfold label_formatter.
  repeat match goal with
         | |- context [String.eqb m ?s] => destruct (String.eqb m s)
         end;
    try (cbn [String.length]; lia).
  rewrite upper_length. lia.
Qed.

Lemma append_length (a b : string) :
  String.length (a ++ b) = (String.length a + String.length b)%nat.
Proof. induction a as [|c a IH]; simpl; [reflexivity | rewrite IH; reflexivity]. Qed.

Lemma repeat_char_length (c : ascii) (n : nat) : String.length (repeat_char c n) = n.
Proof. induction n as [|n IH]; simpl; [reflexivity | rewrite IH; reflexivity]. Qed.

Lemma column_length (width : nat) (text : string) :
  String.length (column width text) = Nat.max width (String.length text).
Proof. unfold column. rewrite append_length, repeat_char_length. lia. Qed.

Lemma upper_char_ascii (c : ascii) :
  (nat_of_ascii c <? 128)%nat = true -> (nat_of_ascii (upper_char c) <? 128)%nat = true.
Proof. destruct c as [[] [] [] [] [] [] [] []]; vm_compute; congruence. Qed.

Lemma upper_ascii (s : string) : is_ascii s = true -> is_ascii (upper s) = true.
Proof.
  unfold is_ascii. induction s as [|c s IH]; [reflexivity|].
  cbn [list_ascii_of_string upper forallb]. intros H.
  apply andb_prop in H. destruct H as [Hc Hs].
  rewrite (upper_char_ascii c Hc), (IH Hs). reflexivity.
Qed.

(** The labels with units are ASCII texts, and the capitals of an ASCII
    key are one. *)
Lemma label_formatter_ascii (m : string) :
  is_ascii m = true -> is_ascii (label_formatter m) = true.
Proof.
  intros H. unfold label_formatter.
  repeat match goal with
         | |- context [String.eqb m ?s] => destruct (String.eqb m s)
         end;
    try reflexivity.
  apply upper_ascii. exact H.
Qed.

(** X13.  For a key of ASCII characters, no label of [label_formatter]
    is longer than 14 characters unless the key itself is: the labels
    with units fit the column that the table gives them, and any other
    key is put in capitals, which for ASCII keeps its length.  So for
    such a key of at most 14 characters the row of the table is the
    label filled to exactly 14 characters, a blank and the number: the
    numbers of all such rows begin in the same column. *)
Theorem label_fits_its_column (k : string) (v : pyval) (q : Q) :
  is_ascii k = true ->
  (String.length k <= 14)%nat -> as_number v = ok q ->
  exists label,
    str_format (table_fmt false) [VStr (label_formatter k); v]
    = ok (label ++ " " ++ column 15 (number_text " " 3 q) ++ nl)
    /\ String.length label = 14%nat
    /\ (String.length (label_formatter k) <= 14)%nat
    /\ label = label_formatter k
               ++ repeat_char " " (14 - String.length (label_formatter k))
    /\ is_ascii (label_formatter k) = true.
Proof.
  intros Hascii Hk Hv. exists (column 14 (label_formatter k)).
  pose proof (label_formatter_length k) as Hl.
  split; [|split; [|split; [|split]]].
  - rewrite (metric_row_eq false _ v q Hv). reflexivity.
  - rewrite column_length. lia.
  - lia.
  - reflexivity.
  - apply label_formatter_ascii. exact Hascii.
Qed.

Lemma label_fits_its_column_witness :
  exists label,
    str_format (table_fmt false) [VStr (label_formatter "p_total"); VFloat 2]
    = ok (label ++ " " ++ column 15 (number_text " " 3 2) ++ nl)
    /\ String.length label = 14%nat
    /\ (String.length (label_formatter "p_total") <= 14)%nat
    /\ label = label_formatter "p_total"
               ++ repeat_char " " (14 - String.length (label_formatter "p_total"))
    /\ is_ascii (label_formatter "p_total") = true.
Proof.
  apply (label_fits_its_column "p_total" (VFloat 2) 2);
    [reflexivity | simpl; lia | reflexivity].
Defined.

(** ** [rotate_vec]: one rotation after another *)

Local Open Scope R_scope.

Lemma np_radians_plus (a b : R) : np_radians (a + b) = np_radians a + np_radians b.
Proof. unfold np_radians. field. Qed.

Lemma rotate_vec_twice (x y a b : R) :
  rotate_vec (fst (rotate_vec x y a)) (snd (rotate_vec x y a)) b
  = rotate_vec x y (a + b).
Proof.
  unfold rotate_vec. cbn [fst snd]. rewrite np_radians_plus, cos_plus, sin_plus.
  f_equal; ring.
Qed.

Lemma rotate_vec_zero (x y : R) : rotate_vec x y 0 = (x, y).
Proof.
  unfold rotate_vec, np_radians. replace (0 * PI / 180) with 0 by field.
  rewrite cos_0, sin_0. f_equal; ring.
Qed.

(** X14.  Rotations add up: to rotate by [a] and then by [b] degrees is
    to rotate by [a + b].  So the rotation by [- a] takes the rotation by
    [a] back, a full turn of 360 degrees changes nothing, and half a turn
    gives the opposite vector. *)
Theorem rotate_vec_composes (x y a b : R) :
  rotate_vec (fst (rotate_vec x y a)) (snd (rotate_vec x y a)) b
  = rotate_vec x y (a + b)
  /\ rotate_vec (fst (rotate_vec x y a)) (snd (rotate_vec x y a)) (- a) = (x, y)
  /\ rotate_vec x y (a + 360) = rotate_vec x y a
  /\ rotate_vec x y 180 = (- x, - y).
Proof.
  split; [apply rotate_vec_twice|]. split; [|split].
  - rewrite rotate_vec_twice. replace (a + - a) with 0 by ring. apply rotate_vec_zero.
  - unfold rotate_vec. rewrite np_radians_plus.
    replace (np_radians 360) with (2 * PI) by (unfold np_radians; field).
    rewrite cos_plus, sin_plus, cos_2PI, sin_2PI. f_equal; ring.
  - unfold rotate_vec, np_radians. replace (180 * PI / 180) with PI by field.
    rewrite cos_PI, sin_PI. f_equal; ring.
Qed.

(** ** [plot_poincare]: what it needs, and where its lines lie *)

(** The artists of a Poincare plot between the least value [lo] and the
    greatest value [hi] of the two sequences. *)
Lemma plot_poincare_eq (wd : poincare) (measures : sd_measures) show figsize title w :
  plot_poincare wd measures show figsize title w
  = match np_min2 (x_plus wd) (x_minus wd), np_max2 (x_plus wd) (x_minus wd) with
    | inr lo, inr hi =>
        let mx := np_mean (x_plus wd) in
        let my := np_mean (x_minus wd) in
        let r1 := rotate_vec 0 (sd1 measures) 45 in
        let r2 := rotate_vec 0 (sd2 measures) 45 in
        let fig :=
          [PScatter (x_plus wd) (x_minus wd) (Palette 0) (75 / 100) "peak-peak intervals";
           PPlot (np_linspace lo hi) (np_linspace lo hi) (Named "black")
             (Some (5 / 10)) "identity line";
           PPlot [mx; mx + fst r1] [my; my + snd r1] (Palette 1) None "SD1";
           PPlot [mx; mx - fst r2] [my; my + snd r2] (Palette 2) None "SD2";
           PPatch (sd_ellipse (mx, my) (sd2 measures * 2) (sd1 measures * 2));
           PSetXLabel "RRi_n (ms)"; PSetYLabel "RRi_n+1 (ms)";
           PLegend 4 (6 / 10); PSetTitle title] in
        if show
        then (inr None, (w ++ [PSubplots "equal" figsize] ++ [PShow fig])%list)
        else (inr (Some fig), (w ++ [PSubplots "equal" figsize])%list)
    | inl e, _ | inr _, inl e => (inl e, (w ++ [PSubplots "equal" figsize])%list)
    end.
Proof.
  unfold plot_poincare.
  unfold bindS, pemit, on_new_pfigure, pdraw, lift, add_artist, set_patch, retS.
  cbv beta iota.
  destruct (np_min2 (x_plus wd) (x_minus wd)) as [e|lo]; [reflexivity|].
  destruct (np_max2 (x_plus wd) (x_minus wd)) as [e|hi]; [reflexivity|].
  cbv zeta.
  destruct (rotate_vec 0 (sd1 measures) 45) as [a1 b1].
  destruct (rotate_vec 0 (sd2 measures) 45) as [a2 b2].
  cbn [app List.length update_patch fst snd el_center el_width el_height
       el_angle el_edgecolor el_fill].
  destruct show; [rewrite <- app_assoc|]; reflexivity.
Qed.

(** X15.  [plot_poincare] needs two sequences as long as each other and
    not empty.  With such sequences it does not raise, whether it shows
    the figure or returns it; with any others it raises [ValueError]
    after it has opened the figure, which is then neither shown nor
    returned. *)
Theorem plot_poincare_needs_matched_points
    (wd : poincare) (measures : sd_measures) show figsize title w :
  let run := plot_poincare wd measures show figsize title w in
  (x_plus wd <> [] /\ List.length (x_plus wd) = List.length (x_minus wd)
   -> exists r, fst run = inr r)
  /\ (x_plus wd = [] \/ List.length (x_plus wd) <> List.length (x_minus wd)
      -> run = (inl ValueError, (w ++ [PSubplots "equal" figsize])%list)).
Proof.
  intros run. subst run. rewrite plot_poincare_eq. unfold np_min2, np_max2. split.
  - intros [Hne Hlen]. rewrite Hlen, Nat.eqb_refl.
    destruct (x_plus wd) as [|x xs]; [contradiction|]. cbn [app list_min list_max ok].
    destruct show; eexists; reflexivity.
  - intros H.
    destruct (Nat.eqb_spec (List.length (x_plus wd)) (List.length (x_minus wd)))
      as [Hlen|Hlen]; [|reflexivity].
    destruct H as [H|H]; [|contradiction].
    rewrite H in *. destruct (x_minus wd); [reflexivity|discriminate].
Qed.

Lemma plot_poincare_needs_matched_points_witness :
  plot_poincare {| x_plus := []; x_minus := [] |} sd_scenario true None "Poincare plot" []
  = (inl ValueError, [PSubplots "equal" None]).
Proof.
  apply (proj2 (plot_poincare_needs_matched_points {| x_plus := []; x_minus := [] |}
                  sd_scenario true None "Poincare plot"%string [])).
  left. reflexivity.
Defined.










Local Close Scope R_scope.

(** ** [plot_breathing]: the fields it needs *)

(** X18.  [plot_breathing] opens its figure before it reads anything.
    The first of the fields [breathing_signal], [breathing_frq],
    [breathing_psd] that the working data lack raises its [KeyError],
    and the figure is left open, neither laid out nor shown.  With the
    three fields there are three calls on the upper axes and five on the
    lower, a tight layout, and the figure is shown or returned.  The
    measures are never read. *)
Theorem plot_breathing_fields wd measures show figsize w :
  match first_missing wd breathing_fields with
  | Some k =>
      plot_breathing wd measures show figsize w
      = (inl (KeyError k), (w ++ [PnSubplots 2 1 figsize])%list)
  | None =>
      exists fig,
        map fst fig = [1; 1; 1; 2; 2; 2; 2; 2]%nat
        /\ plot_breathing wd measures show figsize w
           = if show
             then (inr None,
                   (w ++ [PnSubplots 2 1 figsize; PnTightLayout; PnShow fig])%list)
             else (inr (Some fig), (w ++ [PnSubplots 2 1 figsize; PnTightLayout])%list)
  end.
Proof.
  unfold plot_breathing, breathing_fields, first_missing.
  unfold bindS, pn_emit, on_new_panels, pn_draw, lift, retS. cbv beta iota.
  destruct (dict_get wd "breathing_signal") as [e|sig] eqn:E1.
  { apply dict_get_error in E1. subst. reflexivity. }
  destruct (dict_get wd "breathing_frq") as [e|frq] eqn:E2.
  { apply dict_get_error in E2. subst. reflexivity. }
  destruct (dict_get wd "breathing_psd") as [e|psd] eqn:E3.
  { apply dict_get_error in E3. subst. reflexivity. }
  cbn [app]. eexists. split; [|destruct show; rewrite <- ?app_assoc; reflexivity].
  reflexivity.
Qed.

(** ** [plot_psd]: the spectrum has to be an array *)

(** X19.  [plot_psd] takes the height of its labels from the method
    [max] of the field [psd], after it has drawn the curve and the
    bands.  So a spectrum that is a [list] or a [tuple], of which the
    curve can be drawn, raises [AttributeError], and an array without
    items raises [ValueError]; a missing [frq] or [psd] raises its
    [KeyError], [frq] first.  In each case the figure has been opened
    and is neither shown nor returned. *)
Theorem plot_psd_needs_an_array wd show figsize w :
  let failed e :=
    plot_psd wd show figsize w = (inl e, (w ++ [PnSubplots 1 1 figsize])%list) in
  match dict_get wd "frq", dict_get wd "psd" with
  | inl _, _ => failed (KeyError "frq")
  | inr _, inl _ => failed (KeyError "psd")
  | inr _, inr (VArray []) => failed ValueError
  | inr _, inr (VList _) | inr _, inr (VTuple _) => failed AttributeError
  | inr _, inr _ => True
  end.
Proof.
  unfold plot_psd.
  unfold bindS, pn_emit, on_new_panels, pn_draw, lift, retS. cbv beta iota zeta.
  destruct (dict_get wd "frq") as [e|frq] eqn:E1.
  { apply dict_get_error in E1. subst. reflexivity. }
  destruct (dict_get wd "psd") as [e|psd] eqn:E2.
  { apply dict_get_error in E2. subst. reflexivity. }
  destruct psd as [| | | | | |[|x l]]; first [exact I | reflexivity].
Qed.

Lemma greatest_spec (rest : list pyval) :
  forall (x : pyval) (qx : Q),
    as_number x = ok qx ->
    (forall y, In y rest -> exists q, as_number y = ok q) ->
    exists top qtop,
      greatest x qx rest = ok top /\ In top (x :: rest)
      /\ as_number top = ok qtop /\ (qx <= qtop)%Q
      /\ forall y q, In y rest -> as_number y = ok q -> (q <= qtop)%Q.
Proof.
  induction rest as [|y rest IH]; intros x qx Hx Hall.
  - exists x, qx. cbn [greatest]. repeat split; auto.
    + left. reflexivity.
    + apply Qle_refl.
    + intros y q [].
  - destruct (Hall y (or_introl eq_refl)) as [qy Hy].
    cbn [greatest]. rewrite Hy. unfold ok at 1. cbv beta iota.
    assert (Hrest : forall z, In z rest -> exists q, as_number z = ok q).
    { intros z Hz. apply Hall. right. exact Hz. }
    destruct (Qle_bool_spec qy qx) as [Hle|Hgt].
    + destruct (IH x qx Hx Hrest) as (top & qtop & Hg & Hin & Htop & Hq & Hbound).
      exists top, qtop. split; [exact Hg|]. split; [|split; [exact Htop|split; [exact Hq|]]].
      * destruct Hin as [<-|Hin]; [left; reflexivity | right; right; exact Hin].
      * intros z q [<-|Hz] Hzq.
        -- rewrite Hy in Hzq. inversion Hzq; subst. eapply Qle_trans; eassumption.
        -- apply (Hbound z q Hz Hzq).
    + destruct (IH y qy Hy Hrest) as (top & qtop & Hg & Hin & Htop & Hq & Hbound).
      exists top, qtop. split; [exact Hg|]. split; [|split; [exact Htop|split]].
      * right. exact Hin.
      * apply Qnot_le_lt in Hgt. eapply Qle_trans; [apply Qlt_le_weak; exact Hgt|exact Hq].
      * intros z q [<-|Hz] Hzq.
        -- rewrite Hy in Hzq. inversion Hzq; subst. exact Hq.
        -- apply (Hbound z q Hz Hzq).
Qed.

(** X20.  For a spectrum that is an array of numbers, not empty,
    [plot_psd] draws its figure, and the three labels stand at the height
    of the peak of the spectrum: at an item of [psd] that no item
    exceeds.  The three bands follow one another without a gap, and each
    label stands inside its band. *)
Theorem plot_psd_labels_at_the_peak wd figsize w frq l :
  dict_get wd "frq" = ok frq -> dict_get wd "psd" = ok (VArray l) -> l <> [] ->
  (forall y, In y l -> exists q, as_number y = ok q) ->
  exists fig top qtop,
    plot_psd wd false figsize w
    = (inr (Some fig), (w ++ [PnSubplots 1 1 figsize])%list)
    /\ In top l /\ as_number top = ok qtop
    /\ (forall y q, In y l -> as_number y = ok q -> (q <= qtop)%Q)
    /\ map snd (texts_of fig) = [top; top; top]
    /\ contiguous (spans_of fig)
    /\ Forall2 (fun span text => (fst span < fst text)%Q /\ (fst text < snd span)%Q)
         (spans_of fig) (texts_of fig).
Proof.
  intros Hfrq Hpsd Hne Hall.
  destruct l as [|x rest]; [contradiction|].
  destruct (Hall x (or_introl eq_refl)) as [qx Hx].
  destruct (greatest_spec rest x qx Hx (fun y Hy => Hall y (or_intror Hy)))
    as (top & qtop & Hg & Hin & Htop & Hq & Hbound).
  unfold plot_psd.
  unfold bindS, pn_emit, on_new_panels, pn_draw, lift, retS. cbv beta iota zeta.
  rewrite Hfrq, Hpsd. unfold ok at 1 2 3. cbv beta iota.
  cbn [array_max]. rewrite Hx. unfold ok at 1. cbv beta iota. rewrite Hg.
  unfold ok at 1. cbv beta iota. cbn [app].
  eexists. exists top, qtop. split; [reflexivity|].
  split; [exact Hin|]. split; [exact Htop|]. split.
  { intros y q [<-|Hy] Hyq.
    - rewrite Hx in Hyq. inversion Hyq; subst. exact Hq.
    - apply (Hbound y q Hy Hyq). }
  cbn [texts_of spans_of map snd fst contiguous].
  split; [reflexivity|]. split.
  - repeat split; reflexivity.
  - repeat constructor.
Qed.

Lemma plot_psd_labels_at_the_peak_witness :
  exists fig top,
    plot_psd [("frq", VArray [VFloat (1 # 10); VFloat (2 # 10)]);
              ("psd", VArray [VFloat 5; VFloat 9])] false None []
    = (inr (Some fig), [PnSubplots 1 1 None])
    /\ In top [VFloat 5; VFloat 9]
    /\ map snd (texts_of fig) = [top; top; top].
Proof.
  destruct (plot_psd_labels_at_the_peak
              [("frq", VArray [VFloat (1 # 10); VFloat (2 # 10)]);
               ("psd", VArray [VFloat 5; VFloat 9])] None []
              (VArray [VFloat (1 # 10); VFloat (2 # 10)]) [VFloat 5; VFloat 9])
    as (fig & top & qtop & Hrun & Hin & _ & _ & Htexts & _).
  - reflexivity.
  - reflexivity.
  - discriminate.
  - intros y [<-|[<-|[]]]; eexists; reflexivity.
  - exists fig, top. split; [exact Hrun|]. split; assumption.
Defined.

(** ** [report]: the lines of the text *)

Lemma upper_char_newline (c : ascii) :
  Ascii.eqb (upper_char c) newline = Ascii.eqb c newline.
Proof. destruct c as [[] [] [] [] [] [] [] []]; reflexivity. Qed.

Lemma upper_newlines (s : string) :
  count_char newline (upper s) = count_char newline s.
Proof.
  induction s as [|c s IH]; cbn [upper count_char];
    [reflexivity | rewrite upper_char_newline, IH; reflexivity].
Qed.

Lemma label_formatter_newlines (m : string) :
  count_char newline (label_formatter m) = count_char newline m.
Proof.
  unfold label_formatter.
  repeat match goal with
         | |- context [String.eqb m ?s] =>
             destruct (String.eqb_spec m s); [subst; reflexivity|]
         end.
  apply upper_newlines.
Qed.

Lemma digit_is_no_newline (c : ascii) :
  is_digit c = true -> Ascii.eqb c newline = false.
Proof. destruct c as [[] [] [] [] [] [] [] []]; vm_compute; congruence. Qed.

Lemma digits_of_newlines (n : nat) (m : Z) : count_char newline (digits_of n m) = 0%nat.
Proof.
  revert m. induction n as [|n IH]; intros m; cbn [digits_of]; [reflexivity|].
  rewrite count_char_app, IH. cbn [count_char].
  rewrite (digit_is_no_newline _ (digit_char_is_digit (m mod 10)
                                    (Z.mod_pos_bound m 10 eq_refl))).
  reflexivity.
Qed.

Lemma repeat_char_newlines (c : ascii) (n : nat) :
  Ascii.eqb c newline = false -> count_char newline (repeat_char c n) = 0%nat.
Proof.
  intros Hc. induction n as [|n IH]; cbn [repeat_char count_char];
    [reflexivity | rewrite Hc, IH; reflexivity].
Qed.

Lemma string_of_uint_newlines (d : Decimal.uint) :
  count_char newline (NilZero.string_of_uint d) = 0%nat.
Proof.
  destruct d as [|d|d|d|d|d|d|d|d|d|d]; cbn [NilZero.string_of_uint];
    try reflexivity; cbn [count_char]; simpl Ascii.eqb;
    induction d; cbn [NilEmpty.string_of_uint count_char]; simpl Ascii.eqb;
    auto.
Qed.

Lemma string_of_Z_newlines (z : Z) : count_char newline (string_of_Z z) = 0%nat.
Proof.
  unfold string_of_Z, NilZero.string_of_int.
  destruct (Z.to_int z) as [d|d]; [apply string_of_uint_newlines|].
  cbn [count_char]. simpl Ascii.eqb. apply string_of_uint_newlines.
Qed.

Lemma general_digits_newlines (prec : nat) (q : Q) :
  count_char newline (general_digits true prec q) = 0%nat.
Proof.
  unfold general_digits. destruct (sig_digits (Nat.max prec 1) q) as [m x].
  unfold exponent_text.
  repeat match goal with
         | |- context [if ?b then _ else _] => destruct b
         end;
    rewrite ?count_char_app, ?digits_of_newlines, ?string_of_Z_newlines,
      ?repeat_char_newlines by reflexivity;
    reflexivity.
Qed.

Lemma number_text_newlines (positive_sign : string) (digits : nat) (q : Q) :
  count_char newline positive_sign = 0%nat ->
  count_char newline (number_text positive_sign digits q) = 0%nat.
Proof.
  intros H. unfold number_text. rewrite count_char_app, general_digits_newlines.
  destruct (Qnum q <? 0); [reflexivity | rewrite H; reflexivity].
Qed.

Lemma column_newlines (width : nat) (text : string) :
  count_char newline (column width text) = count_char newline text.
Proof.
  unfold column. rewrite count_char_app, repeat_char_newlines by reflexivity. lia.
Qed.

Lemma row_newlines (csvfile : bool) (digits : nat) (label : string) (q : Q) :
  count_char newline (if csvfile then csv_row digits label q else table_row label q)
  = S (count_char newline label).
Proof.
  destruct csvfile; unfold csv_row, table_row;
    rewrite ?count_char_app, ?column_newlines, ?number_text_newlines by reflexivity;
    cbn; lia.
Qed.

Lemma metric_rows_newlines (csvfile : bool) (qs : list (string * Q)) :
  Forall (fun kq => count_char newline (fst kq) = 0%nat) qs ->
  count_char newline (metric_rows csvfile qs) = List.length qs.
Proof.
  induction 1 as [|[k q] qs Hk _ IH]; cbn [metric_rows List.length]; [reflexivity|].
  rewrite count_char_app, IH. unfold metric_row.
  rewrite (row_newlines csvfile 9), label_formatter_newlines. cbn [fst] in Hk.
  rewrite Hk. reflexivity.
Qed.

Lemma numbers_of_keys (measures : pydict) (qs : list (string * Q)) :
  numbers_of measures = ok qs -> map fst qs = map fst measures.
Proof.
  revert qs. induction measures as [|[k v] rest IH]; intros qs H.
  - inversion H. reflexivity.
  - simpl in H. destruct (as_number v) as [e|q]; [discriminate|].
    destruct (numbers_of rest) as [e|qs']; [discriminate|].
    inversion H; subst. cbn [map fst]. rewrite (IH qs' eq_refl). reflexivity.
Qed.

(** X21.  The text of a report has one line for each measure and five
    more (two of the header, three of the summary) in a CSV file, or six
    more in a table, where an empty line parts the summary from the
    measures; the text ends with the end of its last line.  This holds
    for the keys that have no line break in them, the label of a key
    having as many line breaks as the key. *)
Theorem report_line_count wd measures csvfile text :
  Forall (fun kv => count_char newline (fst kv) = 0%nat) measures ->
  report_text wd measures csvfile = ok text ->
  count_char newline text
  = (List.length measures + if csvfile then 5 else 6)%nat.
Proof.
  intros Hkeys Ht.
  destruct (report_text_needs wd measures csvfile text Ht)
    as (qs & best & b & rb & k & rr & n & H1 & H2 & H3 & H4 & H5 & H6 & H7 & H8).
  rewrite (report_text_layout wd measures csvfile qs best b rb k rr n
             H1 H2 H3 H4 H5 H6 H7) in Ht.
  destruct (Z.eqb_spec n 0) as [|_]; [contradiction|].
  inversion Ht; subst text. clear Ht.
  assert (Hqs : Forall (fun kq => count_char newline (fst kq) = 0%nat) qs).
  { apply Forall_forall. intros [k0 q0] Hin.
    assert (Hk0 : In k0 (map fst measures)).
    { rewrite <- (numbers_of_keys measures qs H1). apply (in_map fst _ _ Hin). }
    apply in_map_iff in Hk0. destruct Hk0 as [[k1 v1] [Heq Hin1]].
    cbn [fst] in *. subst k1.
    apply (proj1 (Forall_forall _ _) Hkeys (k0, v1) Hin1). }
  assert (Hlen : List.length qs = List.length measures).
  { rewrite <- (length_map fst qs), (numbers_of_keys measures qs H1), length_map.
    reflexivity. }
  rewrite !count_char_app, (metric_rows_newlines csvfile qs Hqs), Hlen.
  unfold summary_row. rewrite !(row_newlines csvfile 3).
  destruct csvfile; cbn; lia.
Qed.

Lemma report_line_count_witness :
  exists text,
    report_text scenario_record scenario_measures false = ok text
    /\ count_char newline text = 8%nat.
Proof.
  assert (H : exists text, report_text scenario_record scenario_measures false = ok text).
  { destruct (report_text scenario_record scenario_measures false) as [e|text] eqn:E.
    - vm_compute in E. discriminate.
    - exists text. reflexivity. }
  destruct H as [text Ht]. exists text. split; [exact Ht|].
  apply (report_line_count scenario_record scenario_measures false text);
    [repeat constructor | exact Ht].
Defined.

(** ** [segment_plotter]: the field of the rejected segments *)

Lemma plot_segment_agrees wd wd' measures figsize path i filenum w :
  (forall k, k <> "rejected_segments" -> dict_get wd k = dict_get wd' k) ->
  plot_segment wd measures figsize path i filenum w
  = plot_segment wd' measures figsize path i filenum w.
Proof.
  intros H. unfold plot_segment, bindS, lift, subscript2.
  rewrite <- !(H "peaklist"), <- !(H "ybeat"), <- !(H "removed_beats"),
    <- !(H "removed_beats_y"), <- !(H "hr"), <- !(H "rolling_mean") by discriminate.
  repeat match goal with
  | |- context [match ?r with inl _ => _ | inr _ => _ end] =>
      lazymatch r with
      | context [try_except] => fail
      | _ => destruct r; [reflexivity|]
      end
  end.
  unfold try_except, retS, emit.
  destruct (dict_get wd "rejected_segments") as [e|rs];
    destruct (dict_get wd' "rejected_segments") as [e'|rs'];
    cbv beta iota;
    repeat match goal with
    | |- context [py_getitem ?v i] => destruct (py_getitem v i)
    end;
    cbv beta iota;
    rewrite !plotter_without_sample_rate with (e := KeyError "sample_rate")
      by reflexivity;
    reflexivity.
Qed.

Lemma segment_loop_agrees wd wd' measures figsize path indices :
  (forall k, k <> "rejected_segments" -> dict_get wd k = dict_get wd' k) ->
  forall filenum w,
    segment_loop wd measures figsize path indices filenum w
    = segment_loop wd' measures figsize path indices filenum w.
Proof.
  intros H. induction indices as [|i rest IH]; intros filenum w; [reflexivity|].
  rewrite !segment_loop_cons.
  rewrite (plot_segment_agrees wd wd' measures figsize path i filenum w H).
  reflexivity.
Qed.

(** X22.  The field [rejected_segments] has no part in what
    [segment_plotter] does: its subscript stands in a [try] block that
    lets no exception out, and the plot that would shade the segments
    fails before it reads them.  Two records that agree on every other
    key give the same outcome and leave the same world. *)
Theorem segment_plotter_ignores_rejected_segments
    wd wd' measures title figsize path start end_ step w :
  (forall k, k <> "rejected_segments" -> dict_get wd k = dict_get wd' k) ->
  segment_plotter wd measures title figsize path start end_ step w
  = segment_plotter wd' measures title figsize path start end_ step w.
Proof.
  intros H. unfold segment_plotter, bindS, lift.
  rewrite <- !(H "hr") by discriminate.
  destruct (output_path path w) as [[e|path'] w1].
  - repeat match goal with
    | |- context [match ?r with inl _ => _ | inr _ => _ end] =>
        destruct r; try reflexivity
    end.
  - repeat match goal with
    | |- context [match ?r with inl _ => _ | inr _ => _ end] =>
        destruct r; try reflexivity
    end;
      apply (segment_loop_agrees wd wd' measures figsize path' _ H).
Qed.

Lemma segment_plotter_ignores_rejected_segments_witness :
  segment_plotter (segment_record 5) (segment_measures 5) default_title None
    "out/" 0 None 2 empty_world
  = segment_plotter (dict_set (segment_record 5) "rejected_segments" VNone)
      (segment_measures 5) default_title None "out/" 0 None 2 empty_world.
Proof.
  apply (segment_plotter_ignores_rejected_segments (segment_record 5)
           (dict_set (segment_record 5) "rejected_segments" VNone)).
  intros k Hk. symmetry. apply dict_get_set_other. apply String.eqb_neq. exact Hk.
Defined.
